(** * Local library: the validate-then-persist contract of the controllers

    A shallow embedding of the request handlers of
    [controllers/bookController.js] (book and author handlers),
    [controllers/genreController.js] and
    [controllers/bookinstanceController.js].

    Each handler is a function from a request and a store to the final
    store and the ordered log of calls made on the response ([res.redirect],
    [res.render]) and on [next].  Exceptions are threaded through a small
    state-and-error monad; [asyncHandler] turns an escaped exception into a
    call of [next]. *)

From Stdlib Require Import String Ascii List Bool Arith Lia.
Import ListNotations.
Open Scope string_scope.
Open Scope nat_scope.

(** ** Strings

    A JavaScript string is modelled by the [string] of its UTF-8 bytes
    (well-formed text; a lone surrogate has no place in it).  Characters
    beyond ASCII are the byte sequences that encode them: the character
    classes and the length below read them as validator.js reads the
    characters. *)

Module Str.

Definition code (c : ascii) : nat := nat_of_ascii c.

(** The ASCII part of [\s]: space, tab, line feed, vertical tab, form
    feed, carriage return. *)
Definition is_space (c : ascii) : bool :=
  (code c =? 32) || ((9 <=? code c) && (code c <=? 13)).

(** The rest of [\s], by encoding.  Two bytes: U+00A0 (C2 A0). *)
Definition is_space2 (c1 c2 : ascii) : bool :=
  (code c1 =? 194) && (code c2 =? 160).

(** Three bytes: U+1680 (E1 9A 80), U+2000 to U+200A (E2 80 80 to 8A),
    U+2028, U+2029 and U+202F (E2 80 A8, A9, AF), U+205F (E2 81 9F),
    U+3000 (E3 80 80) and U+FEFF (EF BB BF). *)
Definition is_space3 (c1 c2 c3 : ascii) : bool :=
  let a := code c1 in
  let b := code c2 in
  let c := code c3 in
  ((a =? 225) && (b =? 154) && (c =? 128))
  || ((a =? 226) && (b =? 128)
      && (((128 <=? c) && (c <=? 138)) || (c =? 168) || (c =? 169) || (c =? 175)))
  || ((a =? 226) && (b =? 129) && (c =? 159))
  || ((a =? 227) && (b =? 128) && (c =? 128))
  || ((a =? 239) && (b =? 187) && (c =? 191)).

Definition is_empty (s : string) : bool :=
  match s with EmptyString => true | String _ _ => false end.

(** validator.js [ltrim(str)]: the white space at the start is dropped. *)
Fixpoint ltrim (s : string) : string :=
  match s with
  | EmptyString => EmptyString
  | String c1 s1 =>
      if is_space c1 then ltrim s1
      else
        match s1 with
        | EmptyString => s
        | String c2 s2 =>
            if is_space2 c1 c2 then ltrim s2
            else
              match s2 with
              | EmptyString => s
              | String c3 s3 => if is_space3 c1 c2 c3 then ltrim s3 else s
              end
        end
  end.

(** The string is white space from start to end. *)
Fixpoint all_space (s : string) : bool :=
  match s with
  | EmptyString => true
  | String c1 s1 =>
      if is_space c1 then all_space s1
      else
        match s1 with
        | EmptyString => false
        | String c2 s2 =>
            if is_space2 c1 c2 then all_space s2
            else
              match s2 with
              | EmptyString => false
              | String c3 s3 => is_space3 c1 c2 c3 && all_space s3
              end
        end
  end.

(** validator.js [rtrim(str)]: the white space at the end is dropped.  No
    white space character starts with a byte that continues another
    character, so a tail cut inside a character is never white space. *)
Fixpoint rtrim (s : string) : string :=
  match s with
  | EmptyString => EmptyString
  | String c s' => if all_space s then EmptyString else String c (rtrim s')
  end.

(** validator.js [trim(str)]: [rtrim(ltrim(str))]. *)
Definition trim (s : string) : string := rtrim (ltrim s).

(** validator.js [escape]: the replacements for
    ampersand, double quote, apostrophe, less-than, greater-than, slash,
    backslash and backtick. *)
Definition escape_char (c : ascii) : string :=
  match code c with
  | 38 => "&amp;"
  | 34 => "&quot;"
  | 39 => "&#x27;"
  | 60 => "&lt;"
  | 62 => "&gt;"
  | 47 => "&#x2F;"
  | 92 => "&#x5C;"
  | 96 => "&#96;"
  | _ => String c EmptyString
  end.

Fixpoint escape (s : string) : string :=
  match s with
  | EmptyString => EmptyString
  | String c s' => escape_char c ++ escape s'
  end.

Definition is_alnum (c : ascii) : bool :=
  let n := code c in
  ((48 <=? n) && (n <=? 57)) || ((65 <=? n) && (n <=? 90))
  || ((97 <=? n) && (n <=? 122)).

Fixpoint all_chars (p : ascii -> bool) (s : string) : bool :=
  match s with
  | EmptyString => true
  | String c s' => p c && all_chars p s'
  end.

(** validator.js [isAlphanumeric] for en-US: [/^[0-9A-Z]+$/i]. *)
Definition isAlphanumeric (s : string) : bool :=
  negb (is_empty s) && all_chars is_alnum s.

(** A byte that continues a character (10xxxxxx). *)
Definition is_continuation (c : ascii) : bool :=
  (128 <=? code c) && (code c <=? 191).

(** The characters of the text: its UTF-16 units less one for each
    surrogate pair. *)
Fixpoint code_points (s : string) : nat :=
  match s with
  | EmptyString => 0
  | String c s' => (if is_continuation c then 0 else 1) + code_points s'
  end.

(** The variation selectors U+FE0E and U+FE0F (EF B8 8E, EF B8 8F). *)
Definition is_selector (c1 c2 c3 : ascii) : bool :=
  (code c1 =? 239) && (code c2 =? 184)
  && ((code c3 =? 142) || (code c3 =? 143)).

Fixpoint selectors (s : string) : nat :=
  match s with
  | EmptyString => 0
  | String c1 s1 =>
      match s1 with
      | String c2 (String c3 _) => if is_selector c1 c2 c3 then 1 else 0
      | _ => 0
      end + selectors s1
  end.

(** validator.js [isLength(str, {min})]: the length is
    [str.length] less the surrogate pairs and the variation selectors. *)
Definition length (s : string) : nat := code_points s - selectors s.

Definition isLength (min : nat) (s : string) : bool := min <=? length s.

(** Folding the case of the ASCII letters (used by the comparison of the
    examples). *)
Definition lower (c : ascii) : ascii :=
  let n := code c in
  if (65 <=? n) && (n <=? 90) then ascii_of_nat (n + 32) else c.

Fixpoint fold_case (s : string) : string :=
  match s with
  | EmptyString => EmptyString
  | String c s' => String (lower c) (fold_case s')
  end.

End Str.

(** ** Request bodies *)

(** What the form parser leaves in [req.body] under a repeated name:
    nothing, one string, or an array of strings. *)
Inductive raw : Type :=
| Absent
| One (s : string)
| Many (l : list string).

(** [req.body] as parsed from a submitted form.  The forms of this
    application have one input per name, except the [genre] check boxes
    of the book form: a scalar field is absent or a string, [genre] is
    absent, a string or an array. *)
Record form : Type := {
  scalar : string -> option string;
  genre_input : raw
}.

(** A [Date] object, identified by the text it was parsed from. *)
Inductive JsDate : Type := DateOf (text : string).

(** What a scalar field holds while the validation chains run: sanitizers
    replace a string by another one, by [null] or by a [Date]. *)
Inductive value : Type :=
| VUndefined
| VNull
| VString (s : string)
| VDate (d : JsDate).

(** [req.body] while and after the chains run. *)
Record req_body : Type := {
  field : string -> value;
  genre : raw
}.

Definition parsed (f : form) : req_body :=
  {| field := fun k => match scalar f k with
                       | None => VUndefined
                       | Some s => VString s
                       end;
     genre := genre_input f |}.

Definition set_field (k : string) (v : value) (b : req_body) : req_body :=
  {| field := fun k' => if String.eqb k k' then v else field b k';
     genre := genre b |}.

(** JavaScript truthiness. *)
Definition truthy (v : value) : bool :=
  match v with
  | VUndefined | VNull => false
  | VString s => negb (Str.is_empty s)
  | VDate _ => true
  end.

(** express-validator's [toString], applied to a value before a standard
    validator or sanitizer sees it.  (No chain of this program reaches a
    [Date] here: [toDate] is always the last step.) *)
Definition stringify (v : value) : string :=
  match v with
  | VUndefined | VNull => EmptyString
  | VString s => s
  | VDate (DateOf t) => t
  end.

(** ** Validation chains (express-validator) *)

(** One entry of [validationResult(req).array()]. *)
Record verror : Type := { path : string; msg : string }.

Inductive validator : Type :=
| IsLength (min : nat)
| IsAlphanumeric
| IsISO8601.

Inductive sanitizer : Type :=
| Trim
| Escape
| ToDate.

Inductive item : Type :=
| Validation (v : validator) (message : option string)
| Sanitization (s : sanitizer).

(** The context a chain builds: [body(field, message)] followed by the
    chained calls. *)
Record chain : Type := {
  c_field : string;
  c_message : option string;
  c_optional : bool;
  c_stack : list item
}.

Definition body (f : string) (m : option string) : chain :=
  {| c_field := f; c_message := m; c_optional := false; c_stack := [] |}.

Definition add_item (it : item) (c : chain) : chain :=
  {| c_field := c_field c; c_message := c_message c;
     c_optional := c_optional c; c_stack := (c_stack c ++ [it])%list |}.

Definition trim : chain -> chain := add_item (Sanitization Trim).
Definition escape : chain -> chain := add_item (Sanitization Escape).
Definition toDate : chain -> chain := add_item (Sanitization ToDate).
Definition isLength (min : nat) : chain -> chain :=
  add_item (Validation (IsLength min) None).
Definition isAlphanumeric : chain -> chain :=
  add_item (Validation IsAlphanumeric None).
Definition isISO8601 : chain -> chain :=
  add_item (Validation IsISO8601 None).

(** [.optional({ values: "falsy" })] marks the whole chain. *)
Definition optional_falsy (c : chain) : chain :=
  {| c_field := c_field c; c_message := c_message c;
     c_optional := true; c_stack := c_stack c |}.

(** [.withMessage(m)] sets the message of the last validator added so far;
    sanitizers in between are stepped over. *)
Fixpoint set_last_message (m : string) (rev_stack : list item) : list item :=
  match rev_stack with
  | [] => []
  | Validation v _ :: r => Validation v (Some m) :: r
  | Sanitization s :: r => Sanitization s :: set_last_message m r
  end.

Definition withMessage (m : string) (c : chain) : chain :=
  {| c_field := c_field c; c_message := c_message c;
     c_optional := c_optional c;
     c_stack := rev (set_last_message m (rev (c_stack c))) |}.

(** Method chaining, read left to right as in the source. *)
Notation "c '|>' f" := (f c) (at level 45, left associativity, only parsing).

Section Validator.

(** validator.js is a dependency, not part of the sources: its ISO 8601
    recogniser and the engine's [Date.parse] are taken as given. *)
Variable iso8601 : string -> bool.
Variable Date_parse : string -> option JsDate.

Definition run_validator (v : validator) (s : string) : bool :=
  match v with
  | IsLength min => Str.isLength min s
  | IsAlphanumeric => Str.isAlphanumeric s
  | IsISO8601 => iso8601 s
  end.

(** validator.js [toDate]: a [Date] when [Date.parse] succeeds, [null]
    otherwise. *)
Definition run_sanitizer (sn : sanitizer) (s : string) : value :=
  match sn with
  | Trim => VString (Str.trim s)
  | Escape => VString (Str.escape s)
  | ToDate => match Date_parse s with
              | Some d => VDate d
              | None => VNull
              end
  end.

Definition message_of (c : chain) (m : option string) : string :=
  match m, c_message c with
  | Some s, _ => s
  | None, Some s => s
  | None, None => "Invalid value"
  end.

(** The items run in order on the current value of the field.  An optional
    chain skips an item while the value is falsy; a failed validator adds
    an error and the run goes on (no chain here uses [bail]). *)
Fixpoint run_stack (c : chain) (items : list item) (v : value)
  : value * list verror :=
  match items with
  | [] => (v, [])
  | it :: rest =>
      if c_optional c && negb (truthy v) then run_stack c rest v
      else
        match it with
        | Validation vd m =>
            let r := run_stack c rest v in
            (fst r,
             if run_validator vd (stringify v) then snd r
             else {| path := c_field c; msg := message_of c m |} :: snd r)
        | Sanitization sn =>
            run_stack c rest (run_sanitizer sn (stringify v))
        end
  end.

(** Running one chain as a middleware: the sanitized value is written back
    to [req.body], the errors are added to the request. *)
Definition run_chain (c : chain) (b : req_body) : req_body * list verror :=
  let r := run_stack c (c_stack c) (field b (c_field c)) in
  (set_field (c_field c) (fst r) b, snd r).

(** The chains of a route run in order; [validationResult(req)] holds the
    errors of all of them. *)
Fixpoint run_chains (cs : list chain) (b : req_body)
  : req_body * list verror :=
  match cs with
  | [] => (b, [])
  | c :: rest =>
      let r1 := run_chain c b in
      let r2 := run_chains rest (fst r1) in
      (fst r2, (snd r1 ++ snd r2)%list)
  end.

End Validator.

(** ** Documents and the entity store *)

(** Identifiers are opaque: the text of an ObjectId.  Every string is
    taken to be a well-formed identifier; the cast error of a malformed
    one is outside the model. *)
Definition oid : Type := string.

(** Modelled from the spec: the models ([models/author], [models/genre],
    [models/book], [models/bookinstance]) are not among the sources.  The
    records follow the data model of the specification: the fields of each
    entity, references stored as identifiers, optional dates.  A path that
    was given no string (or no date) is absent. *)
Record Author : Type := {
  author_id : oid;
  first_name : option string;
  family_name : option string;
  date_of_birth : option JsDate;
  date_of_death : option JsDate
}.

Record Genre : Type := {
  genre_id : oid;
  genre_name : option string
}.

Record Book : Type := {
  book_id : oid;
  book_title : option string;
  book_author : option oid;
  book_summary : option string;
  book_isbn : option string;
  book_genre : list oid
}.

Record BookInstance : Type := {
  bi_id : oid;
  bi_book : option oid;
  bi_imprint : option string;
  bi_status : option string;
  bi_due_back : option JsDate
}.

(** Modelled from the spec: schema casts of the model constructors.  A
    string path takes a string, a date path takes a [Date] (an empty
    string, [null] and [undefined] leave it absent), an array of
    references takes the array (one value is wrapped, none gives the empty
    array). *)
Definition cast_string (v : value) : option string :=
  match v with
  | VString s => Some s
  | _ => None
  end.

Definition cast_date (v : value) : option JsDate :=
  match v with
  | VDate d => Some d
  | _ => None
  end.

Definition cast_refs (r : raw) : list oid :=
  match r with
  | Absent => []
  | One s => [s]
  | Many l => l
  end.

(** Modelled from the spec: the [url] virtual of each model is the
    id-addressed detail location of the entity; the prefixes follow the
    list locations the controllers redirect to. *)
Definition author_url (a : Author) : string := "/catalog/author/" ++ author_id a.
Definition genre_url (g : Genre) : string := "/catalog/genre/" ++ genre_id g.
Definition book_url (b : Book) : string := "/catalog/book/" ++ book_id b.
Definition bookinstance_url (i : BookInstance) : string :=
  "/catalog/bookinstance/" ++ bi_id i.

(** Modelled from the spec: the entity store is one collection per entity
    type, each document identified by a unique identifier, with
    find-by-id, find-with-filter, create, update-by-id and delete-by-id.
    A collection is the list of its documents in insertion order. *)
Record store : Type := {
  authors : list Author;
  genres : list Genre;
  books : list Book;
  bookinstances : list BookInstance
}.

Definition empty_store : store :=
  {| authors := []; genres := []; books := []; bookinstances := [] |}.

Definition opt_eqb (a b : option string) : bool :=
  match a, b with
  | Some x, Some y => String.eqb x y
  | None, None => true
  | _, _ => false
  end.

Module Collection.
Section Ops.

Variable D : Type.
Variable id_of : D -> oid.

Definition has_id (id : oid) (d : D) : bool := String.eqb (id_of d) id.

(** [Model.findById(id)]: the document or [null]; an undefined id finds
    nothing. *)
Definition findById (id : option oid) (l : list D) : option D :=
  match id with
  | Some i => find (has_id i) l
  | None => None
  end.

(** [doc.save()] of a new document. *)
Definition insert (d : D) (l : list D) : list D := (l ++ [d])%list.

(** [Model.findByIdAndDelete(id)]. *)
Definition deleteById (id : option oid) (l : list D) : list D :=
  match id with
  | Some i => filter (fun d => negb (has_id i d)) l
  | None => l
  end.

(** [Model.findByIdAndUpdate(id, doc, {})]: the document with this id, if
    there is one, takes the paths of [doc]; nothing is inserted
    otherwise. *)
Definition updateById (id : oid) (d : D) (l : list D) : list D :=
  map (fun x => if has_id id x then d else x) l.

End Ops.
End Collection.

(** [Book.find({ author: id })], [Book.find({ genre: id })] (a book matches
    when its genre array holds the id) and [BookInstance.find({ book: id })]. *)
Definition books_by_author (id : option oid) (s : store) : list Book :=
  filter (fun b => opt_eqb (book_author b) id) (books s).

Definition books_with_genre (id : option oid) (s : store) : list Book :=
  match id with
  | Some g => filter (fun b => existsb (String.eqb g) (book_genre b)) (books s)
  | None => []
  end.

Definition instances_of_book (id : option oid) (s : store) : list BookInstance :=
  filter (fun i => opt_eqb (bi_book i) id) (bookinstances s).

(** [Genre.findOne({ name }).collation({ locale: "en", strength: 2 })]
    is the first genre whose name the collation of the store equates with
    the given one.  The collation belongs to the database: its comparison
    [collates stored given] is taken as given. *)
Definition same_name (collates : string -> string -> bool)
    (name : option string) (g : Genre) : bool :=
  match name, genre_name g with
  | Some n, Some m => collates m n
  | _, _ => false
  end.

Definition genre_by_name (collates : string -> string -> bool)
    (name : option string) (s : store) : option Genre :=
  find (same_name collates name) (genres s).

(** A comparison for the examples: equality once the letters A to Z are
    folded to one case.  It is not the collation of the store, which
    equates more (the case variants of letters beyond ASCII among them);
    the handlers take the comparison as an argument. *)
Definition ascii_fold_eqb (a b : string) : bool :=
  String.eqb (Str.fold_case a) (Str.fold_case b).

Definition set_authors (l : list Author) (s : store) : store :=
  {| authors := l; genres := genres s; books := books s;
     bookinstances := bookinstances s |}.
Definition set_genres (l : list Genre) (s : store) : store :=
  {| authors := authors s; genres := l; books := books s;
     bookinstances := bookinstances s |}.
Definition set_books (l : list Book) (s : store) : store :=
  {| authors := authors s; genres := genres s; books := l;
     bookinstances := bookinstances s |}.
Definition set_bookinstances (l : list BookInstance) (s : store) : store :=
  {| authors := authors s; genres := genres s; books := books s;
     bookinstances := l |}.

(** ** Responses and the handler monad *)

Inductive exn : Type :=
| TypeError (m : string)
| ReferenceError (m : string)
| HttpError (status : nat) (m : string).

(** A value of the [locals] bag handed to the template.  Documents are
    recorded as stored: the expansion of references ([populate]), the field
    projections of [find] and the [checked] marks the book handlers put on
    the genre documents only shape what the template displays and are not
    recorded. *)
Inductive data : Type :=
| DUndefined
| DNull
| DString (s : string)
| DErrors (es : list verror)
| DAuthor (a : Author)
| DAuthors (l : list Author)
| DGenre (g : Genre)
| DGenres (l : list Genre)
| DBook (b : Book)
| DBooks (l : list Book)
| DBookInstance (i : BookInstance)
| DBookInstances (l : list BookInstance).

(** The calls a handler makes on [res] and [next], in order.  Every
    [res.render] of the sources renders the [layout] template; its [view],
    [title] and [locals] options are recorded. *)
Inductive call : Type :=
| Redirect (url : string)
| Render (view title : string) (locals : list (string * data))
| Next (e : exn).

Record world : Type := { db : store; calls : list call }.

Definition M (A : Type) : Type := world -> (exn + A) * world.

Definition ret {A : Type} (a : A) : M A := fun w => (inr a, w).

Definition bind {A B : Type} (m : M A) (k : A -> M B) : M B :=
  fun w =>
    match m w with
    | (inl e, w') => (inl e, w')
    | (inr a, w') => k a w'
    end.

Notation "x <- m ;; k" := (bind m (fun x => k))
  (at level 61, m at next level, right associativity).
Notation "m ;;; k" := (bind m (fun _ => k))
  (at level 61, right associativity).

Definition throw {A : Type} (e : exn) : M A := fun w => (inl e, w).

Definition query {A : Type} (q : store -> A) : M A := fun w => (inr (q (db w)), w).

Definition write (f : store -> store) : M unit :=
  fun w => (inr tt, {| db := f (db w); calls := calls w |}).

Definition respond (c : call) : M unit :=
  fun w => (inr tt, {| db := db w; calls := (calls w ++ [c])%list |}).

Definition redirect (url : string) : M unit := respond (Redirect url).
Definition render (view title : string) (locals : list (string * data)) : M unit :=
  respond (Render view title locals).
Definition next (e : exn) : M unit := respond (Next e).

(** [express-async-handler]: a rejection of the handler's promise is handed
    to [next]. *)
Definition asyncHandler (h : M unit) (w : world) : world :=
  match h w with
  | (inl e, w') => {| db := db w'; calls := (calls w' ++ [Next e])%list |}
  | (inr _, w') => w'
  end.

(** A request: the [:id] of the path and the parsed body.  [fresh] is the
    identifier a model constructor draws for a document that is given
    none. *)
Record request : Type := {
  params_id : string;
  req_form : form;
  fresh : oid
}.

Definition start (s : store) : world := {| db := s; calls := [] |}.

(** [x != y] between the path id (a string) and a scalar body field. *)
Definition loose_neq (x : option string) (y : string) : bool :=
  match x with
  | Some s => negb (String.eqb s y)
  | None => true
  end.

Definition opt_data {A : Type} (f : A -> data) (o : option A) : data :=
  match o with
  | Some a => f a
  | None => DNull
  end.

Arguments Collection.has_id {D} id_of id d.
Arguments Collection.findById {D} id_of id l.
Arguments Collection.insert {D} d l.
Arguments Collection.deleteById {D} id_of id l.
Arguments Collection.updateById {D} id_of id d l.

(** [!x] on a document or [null]. *)
Definition absent {A : Type} (o : option A) : bool :=
  match o with
  | Some _ => false
  | None => true
  end.

(** [errors.isEmpty()], and [list.length > 0] negated. *)
Definition isEmpty {A : Type} (l : list A) : bool :=
  match l with
  | [] => true
  | _ :: _ => false
  end.

(** A concrete recogniser used in the examples: calendar dates of the form
    YYYY-MM-DD, one of the forms validator.js accepts. *)
Definition is_digit (c : ascii) : bool :=
  (48 <=? Str.code c) && (Str.code c <=? 57).

Definition iso8601_calendar (s : string) : bool :=
  match s with
  | String y1 (String y2 (String y3 (String y4 (String h1
      (String m1 (String m2 (String h2 (String d1 (String d2 EmptyString)))))))))
    =>
      let month := 10 * (Str.code m1 - 48) + (Str.code m2 - 48) in
      let day := 10 * (Str.code d1 - 48) + (Str.code d2 - 48) in
      forallb is_digit [y1; y2; y3; y4; m1; m2; d1; d2]
      && (Str.code h1 =? 45) && (Str.code h2 =? 45)
      && (1 <=? month) && (month <=? 12) && (1 <=? day) && (day <=? 31)
  | _ => false
  end.

Definition parse_calendar (s : string) : option JsDate :=
  if iso8601_calendar s then Some (DateOf s) else None.

(** ** The handlers *)

Section Handlers.

Variable iso8601 : string -> bool.
Variable Date_parse : string -> option JsDate.
Variable collates : string -> string -> bool.

Let validate := run_chains iso8601 Date_parse.

(** *** Books ([bookController.js]) *)

(** The first middleware of [book_create_post] and [book_update_post]:
    [req.body.genre] becomes an array. *)
Definition genre_to_array (b : req_body) : req_body :=
  {| field := field b;
     genre := match genre b with
              | Many l => Many l
              | Absent => Many []
              | One s => Many [s]
              end |}.

(** [body("genre.*").escape()]: every element of the array is escaped. *)
Definition escape_each_genre (b : req_body) : req_body :=
  {| field := field b;
     genre := match genre b with
              | Many l => Many (map Str.escape l)
              | g => g
              end |}.

Definition book_create_chains : list chain :=
  [ body "title" (Some "Title must not be empty") |> trim |> isLength 1 |> escape;
    body "author" (Some "Author must not be empty") |> trim |> isLength 1 |> escape;
    body "summary" (Some "Summary must not be empty") |> trim |> isLength 1 |> escape;
    body "isbn" (Some "ISBN must not be empty") |> trim |> isLength 1 |> escape ].

Definition book_update_chains : list chain :=
  [ body "title" (Some "Title must not be empty.") |> trim |> isLength 1 |> escape;
    body "author" (Some "Author must not be empty.") |> trim |> isLength 1 |> escape;
    body "summary" (Some "Summary must not be empty.") |> trim |> isLength 1 |> escape;
    body "isbn" (Some "ISBN must not be empty.") |> trim |> isLength 1 |> escape ].

(** [new Book({ title, author, summary, isbn, genre, _id })]. *)
Definition new_Book (id : oid) (b : req_body) : Book :=
  {| book_id := id;
     book_title := cast_string (field b "title");
     book_author := cast_string (field b "author");
     book_summary := cast_string (field b "summary");
     book_isbn := cast_string (field b "isbn");
     book_genre := cast_refs (genre b) |}.

(** The body and the errors the last handler of [book_create_post] sees. *)
Definition book_create_validation (f : form) : req_body * list verror :=
  let r := validate book_create_chains (genre_to_array (parsed f)) in
  (escape_each_genre (fst r), snd r).

Definition book_update_validation (f : form) : req_body * list verror :=
  let r := validate book_update_chains (genre_to_array (parsed f)) in
  (escape_each_genre (fst r), snd r).

(** On success the handler calls [book.dave()], which no document has:
    the call throws before anything is saved and before the redirect. *)
Definition book_create_post (r : request) : world -> world :=
  let (b, errors) := book_create_validation (req_form r) in
  asyncHandler (
    let book := new_Book (fresh r) b in
    if negb (isEmpty errors) then
      allAuthors <- query authors ;;
      allGenres <- query genres ;;
      render "book_form" "Create Book"
        [ ("authors", DAuthors allAuthors); ("genres", DGenres allGenres);
          ("book", DBook book); ("errors", DErrors errors) ]
    else
      throw (A := unit) (TypeError "book.dave is not a function") ;;;
      redirect (book_url book)).

(** No [return] follows the redirect: the render is called as well. *)
Definition book_delete_get (r : request) : world -> world :=
  asyncHandler (
    book <- query (fun s => Collection.findById book_id (Some (params_id r)) (books s)) ;;
    instancesOfBook <- query (instances_of_book (Some (params_id r))) ;;
    (if absent book then redirect "/catalog/books" else ret tt) ;;;
    render "book_delete" "Delete Book"
      [ ("book", opt_data DBook book);
        ("book_instances", DBookInstances instancesOfBook) ]).

Definition book_delete_post (r : request) : world -> world :=
  let bookid := scalar (req_form r) "bookid" in
  asyncHandler (
    book <- query (fun s => Collection.findById book_id bookid (books s)) ;;
    instancesOfBook <- query (instances_of_book bookid) ;;
    if absent book || loose_neq bookid (params_id r) then
      redirect "/catalog/books"
    else if negb (isEmpty instancesOfBook) then
      render "book_delete" "Delete Book"
        [ ("book", opt_data DBook book);
          ("book_instances", DBookInstances instancesOfBook) ]
    else
      write (fun s => set_books (Collection.deleteById book_id bookid (books s)) s) ;;;
      redirect "/catalog/books").

Definition book_update_get (r : request) : world -> world :=
  asyncHandler (
    book <- query (fun s => Collection.findById book_id (Some (params_id r)) (books s)) ;;
    allAuthors <- query authors ;;
    allGenres <- query genres ;;
    match book with
    | None => next (HttpError 404 "Book not found")
    | Some bk =>
        render "book_form" "Update Book"
          [ ("authors", DAuthors allAuthors); ("genres", DGenres allGenres);
            ("book", DBook bk); ("errors", DUndefined) ]
    end).

(** [findByIdAndUpdate] resolves to the document found, or [null]; the
    redirect reads its [url]. *)
Definition book_update_post (r : request) : world -> world :=
  let (b, errors) := book_update_validation (req_form r) in
  asyncHandler (
    let book := new_Book (params_id r) b in
    if negb (isEmpty errors) then
      allAuthors <- query authors ;;
      allGenres <- query genres ;;
      render "book_form" "Update Book"
        [ ("authors", DAuthors allAuthors); ("genres", DGenres allGenres);
          ("book", DBook book); ("errors", DErrors errors) ]
    else
      updatedBook <- query (fun s => Collection.findById book_id (Some (params_id r)) (books s)) ;;
      write (fun s => set_books (Collection.updateById book_id (params_id r) book (books s)) s) ;;;
      match updatedBook with
      | Some u => redirect (book_url u)
      | None => throw (TypeError "Cannot read properties of null (reading 'url')")
      end).

(** *** Authors (the author handlers of [bookController.js]) *)

(** The same four chains stand before [author_create_post] and
    [author_update_post]. *)
Definition author_chains : list chain :=
  [ body "first_name" None |> trim |> isLength 1 |> escape
      |> withMessage "First name must be specified."
      |> isAlphanumeric
      |> withMessage "First name has non-alphanumeric characters.";
    body "family_name" None |> trim |> isLength 1 |> escape
      |> withMessage "Family name must be specified."
      |> isAlphanumeric
      |> withMessage "Family name has non-alphanumeric characters.";
    body "date_of_birth" (Some "Invalid date of birth.")
      |> optional_falsy |> isISO8601 |> toDate;
    body "date_of_death" (Some "Invalid date of death.")
      |> optional_falsy |> isISO8601 |> toDate ].

(** [new Author({ first_name, family_name, date_of_birth, date_of_death,
    _id })]. *)
Definition new_Author (id : oid) (b : req_body) : Author :=
  {| author_id := id;
     first_name := cast_string (field b "first_name");
     family_name := cast_string (field b "family_name");
     date_of_birth := cast_date (field b "date_of_birth");
     date_of_death := cast_date (field b "date_of_death") |}.

Definition author_validation (f : form) : req_body * list verror :=
  validate author_chains (parsed f).

(** ([console.log] has no part in the response.) *)
Definition author_create_post (r : request) : world -> world :=
  let (b, errors) := author_validation (req_form r) in
  asyncHandler (
    let author := new_Author (fresh r) b in
    if negb (isEmpty errors) then
      render "author_form" "Create author"
        [ ("errors", DErrors errors); ("author", DAuthor author) ]
    else
      write (fun s => set_authors (Collection.insert author (authors s)) s) ;;;
      redirect (author_url author)).

(** No [return] follows the redirect: the render is called as well. *)
Definition author_delete_get (r : request) : world -> world :=
  asyncHandler (
    author <- query (fun s => Collection.findById author_id (Some (params_id r)) (authors s)) ;;
    allBooksByAuthor <- query (books_by_author (Some (params_id r))) ;;
    (if absent author then redirect "/catalog/authors" else ret tt) ;;;
    render "author_delete" "Delete author"
      [ ("author", opt_data DAuthor author);
        ("author_books", DBooks allBooksByAuthor) ]).

Definition author_delete_post (r : request) : world -> world :=
  let authorid := scalar (req_form r) "authorid" in
  asyncHandler (
    author <- query (fun s => Collection.findById author_id authorid (authors s)) ;;
    allBooksByAuthor <- query (books_by_author authorid) ;;
    if absent author || loose_neq authorid (params_id r) then
      redirect "/catalog/authors"
    else if negb (isEmpty allBooksByAuthor) then
      render "author_delete" "Delete author"
        [ ("author", opt_data DAuthor author);
          ("author_books", DBooks allBooksByAuthor) ]
    else
      write (fun s => set_authors (Collection.deleteById author_id authorid (authors s)) s) ;;;
      redirect "/catalog/authors").

Definition author_update_get (r : request) : world -> world :=
  asyncHandler (
    author <- query (fun s => Collection.findById author_id (Some (params_id r)) (authors s)) ;;
    match author with
    | None => redirect "/catalog/authors"
    | Some a =>
        render "author_form" "Update author"
          [ ("author", DAuthor a); ("errors", DUndefined) ]
    end).

(** The failure branch reads [author], a name bound nowhere in the module
    (the document is [updatedAuthor]): evaluating [console.log(author)]
    throws, and the render after it is never reached. *)
Definition author_update_post (r : request) : world -> world :=
  let (b, errors) := author_validation (req_form r) in
  asyncHandler (
    let updatedAuthor := new_Author (params_id r) b in
    if negb (isEmpty errors) then
      throw (ReferenceError "author is not defined")
    else
      write (fun s => set_authors
               (Collection.updateById author_id (params_id r) updatedAuthor (authors s)) s) ;;;
      redirect (author_url updatedAuthor)).

(** *** Genres ([genreController.js]) *)

Definition genre_chains : list chain :=
  [ body "name" (Some "Genre must contain at least 3 characters")
      |> trim |> isLength 3 |> escape ].

(** [new Genre({ name, _id })]. *)
Definition new_Genre (id : oid) (b : req_body) : Genre :=
  {| genre_id := id; genre_name := cast_string (field b "name") |}.

Definition genre_validation (f : form) : req_body * list verror :=
  validate genre_chains (parsed f).

Definition genre_create_post (r : request) : world -> world :=
  let (b, errors) := genre_validation (req_form r) in
  asyncHandler (
    let genre := new_Genre (fresh r) b in
    if negb (isEmpty errors) then
      render "genre_form" "Create genre"
        [ ("genre", DGenre genre); ("errors", DErrors errors) ]
    else
      genreExists <- query (genre_by_name collates (cast_string (field b "name"))) ;;
      match genreExists with
      | Some g => redirect (genre_url g)
      | None =>
          write (fun s => set_genres (Collection.insert genre (genres s)) s) ;;;
          redirect (genre_url genre)
      end).

Definition genre_delete_get (r : request) : world -> world :=
  asyncHandler (
    genre <- query (fun s => Collection.findById genre_id (Some (params_id r)) (genres s)) ;;
    allBooksWithGenre <- query (books_with_genre (Some (params_id r))) ;;
    match genre with
    | None => redirect "/catalog/genres"
    | Some g =>
        render "genre_delete" "Delete Genre"
          [ ("genre", DGenre g); ("genre_books", DBooks allBooksWithGenre) ]
    end).

Definition genre_delete_post (r : request) : world -> world :=
  let genreid := scalar (req_form r) "genreid" in
  asyncHandler (
    genre <- query (fun s => Collection.findById genre_id genreid (genres s)) ;;
    allBooksWithGenre <- query (books_with_genre genreid) ;;
    if absent genre || loose_neq genreid (params_id r) then
      redirect "/catalog/genres"
    else if negb (isEmpty allBooksWithGenre) then
      render "genre_delete" "Delete Genre"
        [ ("genre", opt_data DGenre genre);
          ("genre_books", DBooks allBooksWithGenre) ]
    else
      write (fun s => set_genres (Collection.deleteById genre_id genreid (genres s)) s) ;;;
      redirect "/catalog/genres").

(** There is no test of the lookup's result: an absent genre is handed to
    the form as [null]. *)
Definition genre_update_get (r : request) : world -> world :=
  asyncHandler (
    genre <- query (fun s => Collection.findById genre_id (Some (params_id r)) (genres s)) ;;
    render "genre_form" "Update genre"
      [ ("genre", opt_data DGenre genre); ("errors", DUndefined) ]).

Definition genre_update_post (r : request) : world -> world :=
  let (b, errors) := genre_validation (req_form r) in
  asyncHandler (
    let updatedGenre := new_Genre (params_id r) b in
    if negb (isEmpty errors) then
      render "genre_form" "Create genre"
        [ ("genre", DGenre updatedGenre); ("errors", DErrors errors) ]
    else
      genreExists <- query (genre_by_name collates (cast_string (field b "name"))) ;;
      match genreExists with
      | Some g => redirect (genre_url g)
      | None =>
          write (fun s => set_genres
                   (Collection.updateById genre_id (params_id r) updatedGenre (genres s)) s) ;;;
          redirect (genre_url updatedGenre)
      end).

(** *** Book instances ([bookinstanceController.js]) *)

(** The same four chains stand before [bookinstance_create_post] and
    [bookinstance_update_post]; [status] is only escaped. *)
Definition bookinstance_chains : list chain :=
  [ body "book" (Some "Book must be specified.") |> trim |> isLength 1 |> escape;
    body "imprint" (Some "Imprint must be specified.") |> trim |> isLength 1 |> escape;
    body "status" None |> escape;
    body "due_back" (Some "Invalid date.") |> optional_falsy |> isISO8601 |> toDate ].

(** [new BookInstance({ book, imprint, status, due_back, _id })]. *)
Definition new_BookInstance (id : oid) (b : req_body) : BookInstance :=
  {| bi_id := id;
     bi_book := cast_string (field b "book");
     bi_imprint := cast_string (field b "imprint");
     bi_status := cast_string (field b "status");
     bi_due_back := cast_date (field b "due_back") |}.

Definition bookinstance_validation (f : form) : req_body * list verror :=
  validate bookinstance_chains (parsed f).

(** [doc.book.toString()]. *)
Definition book_toString (i : BookInstance) : M string :=
  match bi_book i with
  | Some id => ret id
  | None => throw (TypeError "Cannot read properties of undefined (reading 'toString')")
  end.

Definition bookinstance_create_post (r : request) : world -> world :=
  let (b, errors) := bookinstance_validation (req_form r) in
  asyncHandler (
    let bookInstance := new_BookInstance (fresh r) b in
    if negb (isEmpty errors) then
      allBooks <- query books ;;
      selected <- book_toString bookInstance ;;
      render "bookinstance_form" "Create BookInstance"
        [ ("errors", DErrors errors); ("bookinstance", DBookInstance bookInstance);
          ("selected_book", DString selected); ("book_list", DBooks allBooks) ]
    else
      write (fun s => set_bookinstances
               (Collection.insert bookInstance (bookinstances s)) s) ;;;
      redirect (bookinstance_url bookInstance)).

Definition bookinstance_delete_get (r : request) : world -> world :=
  asyncHandler (
    bookInstance <- query (fun s => Collection.findById bi_id (Some (params_id r)) (bookinstances s)) ;;
    match bookInstance with
    | None => redirect "/catalog/bookinstances"
    | Some i =>
        render "bookinstance_delete" "Delete bookinstance"
          [ ("bookinstance", DBookInstance i) ]
    end).

(** The book of the instance is looked up before the delete and its [url]
    is read after it. *)
Definition bookinstance_delete_post (r : request) : world -> world :=
  let bookinstanceid := scalar (req_form r) "bookinstanceid" in
  asyncHandler (
    bookInstance <- query (fun s => Collection.findById bi_id bookinstanceid (bookinstances s)) ;;
    match bookInstance with
    | None => redirect "/catalog/bookinstances"
    | Some i =>
        if loose_neq bookinstanceid (params_id r) then
          redirect "/catalog/bookinstances"
        else
          book <- query (fun s => Collection.findById book_id (bi_book i) (books s)) ;;
          write (fun s => set_bookinstances
                   (Collection.deleteById bi_id bookinstanceid (bookinstances s)) s) ;;;
          match book with
          | Some bk => redirect (book_url bk)
          | None => throw (TypeError "Cannot read properties of null (reading 'url')")
          end
    end).

(** There is no test of the lookup's result: [bookInstance.book] is read
    from it at once. *)
Definition bookinstance_update_get (r : request) : world -> world :=
  asyncHandler (
    bookInstance <- query (fun s => Collection.findById bi_id (Some (params_id r)) (bookinstances s)) ;;
    allbooks <- query books ;;
    match bookInstance with
    | None => throw (TypeError "Cannot read properties of null (reading 'book')")
    | Some i =>
        selected <- book_toString i ;;
        render "bookinstance_form" "Update BookInstance"
          [ ("book_list", DBooks allbooks); ("errors", DUndefined);
            ("selected_book", DString selected); ("bookinstance", DBookInstance i) ]
    end).

Definition bookinstance_update_post (r : request) : world -> world :=
  let (b, errors) := bookinstance_validation (req_form r) in
  asyncHandler (
    let updatedBookInstance := new_BookInstance (params_id r) b in
    if negb (isEmpty errors) then
      allBooks <- query books ;;
      selected <- book_toString updatedBookInstance ;;
      render "bookinstance_form" "Update BookInstance"
        [ ("errors", DErrors errors); ("bookinstance", DBookInstance updatedBookInstance);
          ("selected_book", DString selected); ("book_list", DBooks allBooks) ]
    else
      write (fun s => set_bookinstances
               (Collection.updateById bi_id (params_id r) updatedBookInstance
                  (bookinstances s)) s) ;;;
      redirect (bookinstance_url updatedBookInstance)).

End Handlers.

(** *** Pages that only read *)

(** A template literal prints an absent value as [undefined]. *)
Definition template_text (o : option string) : string :=
  match o with
  | Some s => s
  | None => "undefined"
  end.

(** [genre_detail] ([genreController.js]). *)
Definition genre_detail (r : request) : world -> world :=
  asyncHandler (
    genre <- query (fun s => Collection.findById genre_id (Some (params_id r)) (genres s)) ;;
    booksInGenre <- query (books_with_genre (Some (params_id r))) ;;
    match genre with
    | None => next (HttpError 404 "Genre not found")
    | Some g =>
        render "genre_detail" (template_text (genre_name g) ++ " books")
          [ ("genre", DGenre g); ("genre_books", DBooks booksInGenre) ]
    end).

Definition genre_create_get (r : request) : world -> world :=
  asyncHandler (
    render "genre_form" "Create genre"
      [ ("genre", DUndefined); ("errors", DUndefined) ]).

(** [author_create_get] and [book_create_get] ([bookController.js]). *)
Definition author_create_get (r : request) : world -> world :=
  asyncHandler (
    render "author_form" "Create author"
      [ ("author", DUndefined); ("errors", DUndefined) ]).

Definition book_create_get (r : request) : world -> world :=
  asyncHandler (
    allAuthors <- query authors ;;
    allGenres <- query genres ;;
    render "book_form" "Create book"
      [ ("book", DUndefined); ("errors", DUndefined);
        ("genres", DGenres allGenres); ("authors", DAuthors allAuthors) ]).

(** [bookinstance_list], [bookinstance_detail] and
    [bookinstance_create_get] ([bookinstanceController.js]). *)
Definition bookinstance_list (r : request) : world -> world :=
  asyncHandler (
    allBookInstances <- query bookinstances ;;
    render "bookinstance_list" "Book Instance List"
      [ ("bookinstance_list", DBookInstances allBookInstances) ]).

(** The title reads [bookInstance.book.title] from the populated
    reference: [populate] leaves [null] for a book that is not found (and
    nothing for an instance without a book), and the read throws. *)
Definition bookinstance_detail (r : request) : world -> world :=
  asyncHandler (
    bookInstance <- query (fun s => Collection.findById bi_id (Some (params_id r)) (bookinstances s)) ;;
    match bookInstance with
    | None => next (HttpError 404 "Book copy not found")
    | Some i =>
        book <- query (fun s => Collection.findById book_id (bi_book i) (books s)) ;;
        match bi_book i, book with
        | None, _ =>
            throw (TypeError "Cannot read properties of undefined (reading 'title')")
        | Some _, None =>
            throw (TypeError "Cannot read properties of null (reading 'title')")
        | Some _, Some bk =>
            render "bookinstance_detail" ("Copy: " ++ template_text (book_title bk))
              [ ("bookinstance", DBookInstance i) ]
        end
    end).

Definition bookinstance_create_get (r : request) : world -> world :=
  asyncHandler (
    allbooks <- query books ;;
    render "bookinstance_form" "Create BookInstance"
      [ ("book_list", DBooks allbooks); ("errors", DUndefined);
        ("selected_book", DUndefined); ("bookinstance", DUndefined) ]).

(** Building requests for the examples. *)
Definition fields (l : list (string * string)) : string -> option string :=
  fun k => option_map snd (find (fun p => String.eqb (fst p) k) l).

Definition mk_form (l : list (string * string)) (g : raw) : form :=
  {| scalar := fields l; genre_input := g |}.

Definition mk_request (id : string) (l : list (string * string)) (g : raw)
    (new_id : oid) : request :=
  {| params_id := id; req_form := mk_form l g; fresh := new_id |}.

(** ** Notions of the specification *)

(** A dependent entity: one whose reference field points at the entity
    considered for deletion. *)
Definition references_author (id : oid) (b : Book) : Prop := book_author b = Some id.
Definition references_genre (id : oid) (b : Book) : Prop := In id (book_genre b).
Definition references_book (id : oid) (i : BookInstance) : Prop := bi_book i = Some id.

(** A genre whose stored name the comparison of the store equates with
    [name]. *)
Definition collates_with (collates : string -> string -> bool)
    (name : string) (g : Genre) : Prop :=
  exists m, genre_name g = Some m /\ collates m name = true.

(** A genre whose stored name equals [name] up to the case of its
    letters, for a relation [ignoring_case] that says which names do. *)
Definition same_name_ignoring_case (ignoring_case : string -> string -> Prop)
    (name : string) (g : Genre) : Prop :=
  exists m, genre_name g = Some m /\ ignoring_case m name.

(** The comparison of the store honours a relation between names when it
    equates the names so related: a collation of strength 2 honours
    equality up to case. *)
Definition honours (collates : string -> string -> bool)
    (related : string -> string -> Prop) : Prop :=
  forall stored given, related stored given -> collates stored given = true.

(** Equality up to the case of the ASCII letters. *)
Definition ignoring_ascii_case (a b : string) : Prop :=
  Str.fold_case a = Str.fold_case b.

(** The errors of a validation result that belong to one field. *)
Definition errors_of (fld : string) (errs : list verror) : list verror :=
  filter (fun e => String.eqb (path e) fld) errs.

(** What an optional date field [fld] with message [m] owes, for a
    validation and the create and update handlers behind it, on the form
    [f]: an absent or empty value gives no error for the field and no date
    in the document; a non-empty value the recogniser rejects gives exactly
    the error [m] for the field, and neither handler changes the store. *)
Definition optional_date_contract (rejects : string -> Prop) (fld m : string)
    (validation : form -> req_body * list verror)
    (create update : request -> world -> world) (f : form) : Prop :=
  ((scalar f fld = None \/ scalar f fld = Some EmptyString) ->
     errors_of fld (snd (validation f)) = []
     /\ cast_date (field (fst (validation f)) fld) = None)
  /\ (forall v, scalar f fld = Some v -> v <> EmptyString -> rejects v ->
       errors_of fld (snd (validation f)) = [ {| path := fld; msg := m |} ]
       /\ forall r s, req_form r = f ->
            db (create r (start s)) = s /\ db (update r (start s)) = s).

(** The form [f] with the scalar field [k] replaced. *)
Definition with_scalar (k : string) (v : option string) (f : form) : form :=
  {| scalar := fun k' => if String.eqb k k' then v else scalar f k';
     genre_input := genre_input f |}.

(** Stores and requests of the examples. *)
Definition a_book (id author : oid) (gs : list oid) : Book :=
  {| book_id := id; book_title := Some "Dune"; book_author := Some author;
     book_summary := Some "Sand"; book_isbn := Some "9780441013593";
     book_genre := gs |}.

Definition an_author (id : oid) : Author :=
  {| author_id := id; first_name := Some "Frank"; family_name := Some "Herbert";
     date_of_birth := None; date_of_death := None |}.

Definition a_genre (id : oid) (name : string) : Genre :=
  {| genre_id := id; genre_name := Some name |}.

Definition a_copy (id book : oid) : BookInstance :=
  {| bi_id := id; bi_book := Some book; bi_imprint := Some "Ace, 2005";
     bi_status := Some "Available"; bi_due_back := None |}.

(** One author, one genre, one book of both, one copy of the book. *)
Definition library : store :=
  {| authors := [an_author "a1"];
     genres := [a_genre "g1" "Fiction"];
     books := [a_book "b1" "a1" ["g1"]];
     bookinstances := [a_copy "i1" "b1"] |}.

(** The same entities with nothing referring to them. *)
Definition lone_entities : store :=
  {| authors := [an_author "a1"];
     genres := [a_genre "g1" "Fiction"];
     books := [a_book "b1" "a9" []];
     bookinstances := [] |}.

(** A copy whose book is gone. *)
Definition orphan_copy : store :=
  {| authors := []; genres := []; books := [];
     bookinstances := [a_copy "i1" "b1"] |}.

Definition valid_book_fields : list (string * string) :=
  [ ("title", "Dune"); ("author", "a1"); ("summary", "Sand");
    ("isbn", "9780441013593") ].

Definition submit_book (g : raw) : request :=
  mk_request "" valid_book_fields g "b2".

Definition delete_request (fld id : string) : request :=
  mk_request id [(fld, id)] Absent "".

Definition get_request (id : string) : request := mk_request id [] Absent "".

Definition author_fields (birth : string) : list (string * string) :=
  [ ("first_name", "Frank"); ("family_name", "Herbert");
    ("date_of_birth", birth); ("date_of_death", "") ].

Definition copy_fields (status due : string) : list (string * string) :=
  [ ("book", "b1"); ("imprint", "Ace, 2005"); ("status", status);
    ("due_back", due) ].

(** ** Further notions *)

(** A required field is blank when what is left of it after trimming
    has length 0 (an absent field is read as the empty string). *)
Definition blank (f : form) (fld : string) : bool :=
  negb (Str.isLength 1 (Str.trim (stringify (field (parsed f) fld)))).

(** One error per blank field of a table of required fields and their
    messages, in the order of the table. *)
Definition required_errors (table : list (string * string)) (f : form)
  : list verror :=
  flat_map (fun p => if blank f (fst p)
                     then [ {| path := fst p; msg := snd p |} ]
                     else []) table.

Definition book_create_messages : list (string * string) :=
  [ ("title", "Title must not be empty"); ("author", "Author must not be empty");
    ("summary", "Summary must not be empty"); ("isbn", "ISBN must not be empty") ].

Definition book_update_messages : list (string * string) :=
  [ ("title", "Title must not be empty."); ("author", "Author must not be empty.");
    ("summary", "Summary must not be empty."); ("isbn", "ISBN must not be empty.") ].

Definition bookinstance_messages : list (string * string) :=
  [ ("book", "Book must be specified."); ("imprint", "Imprint must be specified.") ].

(** The characters [escape] replaces, the ampersand apart: double quote,
    apostrophe, less-than, greater-than, slash, backslash, backtick. *)
Definition is_markup (c : ascii) : bool :=
  let n := Str.code c in
  (n =? 34) || (n =? 39) || (n =? 60) || (n =? 62) || (n =? 47)
  || (n =? 92) || (n =? 96).

Definition markup_free (s : string) : bool :=
  Str.all_chars (fun c => negb (is_markup c)) s.

Definition value_markup_free (v : value) : bool :=
  match v with
  | VString s => markup_free s
  | _ => false
  end.

Definition opt_markup_free (o : option string) : bool :=
  match o with
  | Some s => markup_free s
  | None => false
  end.

(** What the chain of an author name owes for the trimmed name [n]: both
    messages when its length is 0, the second one when it has a length
    but is not alphanumeric, none when it is alphanumeric, and then [n]
    itself is what the document stores. *)
Definition name_contract (fld specified alphanumeric : string)
    (errors : list verror) (stored : option string) (n : string) : Prop :=
  (Str.isLength 1 n = false ->
     errors_of fld errors
     = [ {| path := fld; msg := specified |};
         {| path := fld; msg := alphanumeric |} ])
  /\ (Str.isLength 1 n = true -> Str.isAlphanumeric n = false ->
      errors_of fld errors = [ {| path := fld; msg := alphanumeric |} ])
  /\ (Str.isAlphanumeric n = true ->
      errors_of fld errors = [] /\ stored = Some n).

(** Texts beyond ASCII, by their bytes: U+00A0 (no-break space), the two
    characters U+65E5 U+672C, and U+FE0F (a variation selector). *)
Definition of_bytes (l : list nat) : string :=
  fold_right (fun n s => String (ascii_of_nat n) s) EmptyString l.

Definition nbsp : string := of_bytes [194; 160].
Definition two_cjk : string := of_bytes [230; 151; 165; 230; 156; 172].
Definition selector : string := of_bytes [239; 184; 143].

(** A store with a second copy of the book of [library]. *)
Definition two_copies : store :=
  {| authors := [an_author "a1"];
     genres := [a_genre "g1" "Fiction"];
     books := [a_book "b1" "a1" ["g1"]];
     bookinstances := [a_copy "i1" "b1"; a_copy "i2" "b7"] |}.

(** ** Properties *)

Ltac eval_handler :=
  cbn -[Str.trim Str.escape Str.isLength Str.isAlphanumeric Str.fold_case
        String.eqb].

Ltac eval_chains :=
  cbn -[Str.trim Str.escape Str.isLength Str.isAlphanumeric].

Ltac split_conditions :=
  repeat match goal with
         | |- context [if ?c then _ else _] => destruct c
         | |- context [match ?o with Some _ => _ | None => _ end] => destruct o
         end.

Ltac split_blank :=
  repeat match goal with
         | |- context [Str.isLength ?n ?x] => destruct (Str.isLength n x)
         end.

Ltac eval_handler_in H :=
  cbn -[Str.trim Str.escape Str.isLength Str.isAlphanumeric Str.fold_case
        String.eqb] in H.

(** The string functions on texts beyond ASCII: a no-break space is
    trimmed like a space, two characters of three bytes each have length
    two, and a variation selector has none. *)
Example trim_beyond_ascii :
  Str.trim ("Frank" ++ nbsp) = "Frank"
  /\ Str.trim nbsp = EmptyString
  /\ Str.trim (nbsp ++ two_cjk ++ " ") = two_cjk.
Proof. repeat split; reflexivity. Qed.

Example length_beyond_ascii :
  Str.length two_cjk = 2
  /\ Str.isLength 3 two_cjk = false
  /\ Str.length selector = 0
  /\ Str.isLength 1 selector = false
  /\ Str.length "Dune" = 4.
Proof. repeat split; reflexivity. Qed.

Section Properties.

Variable iso8601 : string -> bool.
Variable Date_parse : string -> option JsDate.
Variable collates : string -> string -> bool.

Lemma find_after_delete {D : Type} (id_of : D -> oid) (i : oid) (l : list D) :
  Collection.findById id_of (Some i) (Collection.deleteById id_of (Some i) l) = None.
Proof.
  simpl. induction l as [|d l IH]; [reflexivity|]. simpl.
  destruct (Collection.has_id id_of i d) eqn:E; simpl; [exact IH|].
  now rewrite E.
Qed.

Lemma opt_eqb_eq (a b : option string) : opt_eqb a b = true <-> a = b.
Proof.
  destruct a as [x|], b as [y|]; simpl; try (split; congruence).
  rewrite String.eqb_eq. split; congruence.
Qed.

Lemma loose_neq_same (id : string) : loose_neq (Some id) id = false.
Proof. simpl. now rewrite String.eqb_refl. Qed.

(** A text that is not empty and holds no variation selector has a length
    of at least 1. *)
Lemma isLength_1_of_text (c : ascii) (s : string) :
  Str.is_continuation c = false -> Str.selectors (String c s) = 0 ->
  Str.isLength 1 (String c s) = true.
Proof.
  intros Hc Hs. unfold Str.isLength, Str.length. rewrite Hs.
  cbn [Str.code_points]. rewrite Hc. reflexivity.
Qed.

(** A book submission whose four required fields have a length of at
    least 1 after trimming passes validation; [book_create_post] then
    throws at the call of [book.dave] and [asyncHandler] hands the error to
    [next]. *)
Lemma book_create_post_valid
    (r : request) (s : store) (t a sm i : string) :
  scalar (req_form r) "title" = Some t ->
  scalar (req_form r) "author" = Some a ->
  scalar (req_form r) "summary" = Some sm ->
  scalar (req_form r) "isbn" = Some i ->
  Str.isLength 1 (Str.trim t) = true -> Str.isLength 1 (Str.trim a) = true ->
  Str.isLength 1 (Str.trim sm) = true -> Str.isLength 1 (Str.trim i) = true ->
  snd (book_create_validation iso8601 Date_parse (req_form r)) = []
  /\ book_create_post iso8601 Date_parse r (start s)
     = {| db := s; calls := [Next (TypeError "book.dave is not a function")] |}.
Proof.
  intros Ht Ha Hs Hi Vt Va Vs Vi.
  unfold book_create_post, book_create_validation, book_create_chains.
  eval_handler. rewrite Ht, Ha, Hs, Hi. eval_chains.
  rewrite Vt, Va, Vs, Vi. split; reflexivity.
Qed.

(** C1 (the code departs from the claim).  A book submission whose title,
    author, summary and isbn are non-empty after trimming (of length 1 at
    least, as [isLength] counts) passes validation, and then
    [book_create_post] saves nothing and redirects nowhere: the store is unchanged and the only call made is [next] with
    the TypeError of the call of [book.dave]. *)
Theorem book_create_post_valid_throws
    (r : request) (s : store) (t a sm i : string) :
  scalar (req_form r) "title" = Some t ->
  scalar (req_form r) "author" = Some a ->
  scalar (req_form r) "summary" = Some sm ->
  scalar (req_form r) "isbn" = Some i ->
  Str.isLength 1 (Str.trim t) = true -> Str.isLength 1 (Str.trim a) = true ->
  Str.isLength 1 (Str.trim sm) = true -> Str.isLength 1 (Str.trim i) = true ->
  snd (book_create_validation iso8601 Date_parse (req_form r)) = []
  /\ db (book_create_post iso8601 Date_parse r (start s)) = s
  /\ calls (book_create_post iso8601 Date_parse r (start s))
     = [Next (TypeError "book.dave is not a function")].
Proof.
  intros Ht Ha Hs Hi Vt Va Vs Vi.
  destruct (book_create_post_valid r s t a sm i Ht Ha Hs Hi Vt Va Vs Vi) as [E1 E2].
  rewrite E2. auto.
Qed.

(** C2 (the code departs from the claim).  When the validation of an
    author update leaves at least one error, [author_update_post] renders
    nothing: the only call made is [next] with the ReferenceError of the
    unbound name [author].  The store is unchanged. *)
Theorem author_update_post_invalid_throws (r : request) (s : store) :
  snd (author_validation iso8601 Date_parse (req_form r)) <> [] ->
  author_update_post iso8601 Date_parse r (start s)
  = {| db := s; calls := [Next (ReferenceError "author is not defined")] |}.
Proof.
  intro H. unfold author_update_post.
  destruct (author_validation iso8601 Date_parse (req_form r)) as [b errors].
  simpl in H. destruct errors as [|e errors]; [congruence|]. reflexivity.
Qed.

(** The sibling [author_create_post] does re-render the form on the same
    condition, with the errors and the submitted values. *)
Lemma author_create_post_invalid_renders (r : request) (s : store) :
  snd (author_validation iso8601 Date_parse (req_form r)) <> [] ->
  author_create_post iso8601 Date_parse r (start s)
  = {| db := s;
       calls := [Render "author_form" "Create author"
                   [ ("errors", DErrors (snd (author_validation iso8601 Date_parse (req_form r))));
                     ("author", DAuthor (new_Author (fresh r)
                        (fst (author_validation iso8601 Date_parse (req_form r))))) ]] |}.
Proof.
  intro H. unfold author_create_post.
  destruct (author_validation iso8601 Date_parse (req_form r)) as [b errors].
  simpl in *. destruct errors as [|e errors]; [congruence|]. reflexivity.
Qed.

(** A first name that is not alphanumeric once trimmed and escaped (the
    empty one included) is such a failure. *)
Lemma author_first_name_rejected (f : form) :
  Str.isAlphanumeric
    (Str.escape (Str.trim (stringify (field (parsed f) "first_name")))) = false ->
  In {| path := "first_name"; msg := "First name has non-alphanumeric characters." |}
     (snd (author_validation iso8601 Date_parse f)).
Proof.
  intro H. unfold author_validation, author_chains. eval_handler.
  eval_handler_in H.
  destruct (Str.isLength 1 _); rewrite H; simpl; auto.
Qed.

(** *** Deleting authors, genres and books *)

Lemma books_by_author_spec (id : oid) (s : store) (b : Book) :
  In b (books_by_author (Some id) s) <-> In b (books s) /\ references_author id b.
Proof.
  unfold books_by_author, references_author. rewrite filter_In.
  now rewrite opt_eqb_eq.
Qed.

Lemma books_with_genre_spec (id : oid) (s : store) (b : Book) :
  In b (books_with_genre (Some id) s) <-> In b (books s) /\ references_genre id b.
Proof.
  unfold books_with_genre, references_genre. rewrite filter_In, existsb_exists.
  split; intros [Hb H]; split; trivial.
  - destruct H as [x [Hx E]]. apply String.eqb_eq in E. now subst.
  - exists id. split; [assumption | apply String.eqb_refl].
Qed.

Lemma instances_of_book_spec (id : oid) (s : store) (i : BookInstance) :
  In i (instances_of_book (Some id) s) <-> In i (bookinstances s) /\ references_book id i.
Proof.
  unfold instances_of_book, references_book. rewrite filter_In.
  now rewrite opt_eqb_eq.
Qed.

Lemma isEmpty_inhabited {A : Type} (l : list A) (x : A) : In x l -> isEmpty l = false.
Proof. destruct l; [contradiction | reflexivity]. Qed.

Lemma isEmpty_no_member {A : Type} (l : list A) :
  (forall x, ~ In x l) -> l = [].
Proof.
  destruct l as [|a l]; [reflexivity|]. intro H.
  exfalso. apply (H a). now left.
Qed.

Lemma author_delete_post_blocked (r : request) (s : store) (a : Author) (b : Book) :
  scalar (req_form r) "authorid" = Some (params_id r) ->
  Collection.findById author_id (Some (params_id r)) (authors s) = Some a ->
  In b (books s) -> references_author (params_id r) b ->
  author_delete_post r (start s)
  = {| db := s;
       calls := [Render "author_delete" "Delete author"
                   [ ("author", DAuthor a);
                     ("author_books", DBooks (books_by_author (Some (params_id r)) s)) ]] |}.
Proof.
  intros Hbody Hfind Hin Href. unfold author_delete_post.
  rewrite Hbody. unfold asyncHandler, bind, query, start. cbn [db calls].
  rewrite Hfind, loose_neq_same. cbn [absent orb].
  rewrite (isEmpty_inhabited _ b) by (apply books_by_author_spec; auto).
  reflexivity.
Qed.

Lemma author_delete_post_free (r : request) (s : store) (a : Author) :
  scalar (req_form r) "authorid" = Some (params_id r) ->
  Collection.findById author_id (Some (params_id r)) (authors s) = Some a ->
  (forall b, In b (books s) -> ~ references_author (params_id r) b) ->
  author_delete_post r (start s)
  = {| db := set_authors (Collection.deleteById author_id (Some (params_id r)) (authors s)) s;
       calls := [Redirect "/catalog/authors"] |}.
Proof.
  intros Hbody Hfind Hno. unfold author_delete_post.
  rewrite Hbody. unfold asyncHandler, bind, query, start. cbn [db calls].
  rewrite Hfind, loose_neq_same. cbn [absent orb].
  rewrite (isEmpty_no_member (books_by_author (Some (params_id r)) s)).
  - reflexivity.
  - intros b Hb. apply books_by_author_spec in Hb. destruct Hb. now apply (Hno b).
Qed.

Lemma genre_delete_post_blocked (r : request) (s : store) (g : Genre) (b : Book) :
  scalar (req_form r) "genreid" = Some (params_id r) ->
  Collection.findById genre_id (Some (params_id r)) (genres s) = Some g ->
  In b (books s) -> references_genre (params_id r) b ->
  genre_delete_post r (start s)
  = {| db := s;
       calls := [Render "genre_delete" "Delete Genre"
                   [ ("genre", DGenre g);
                     ("genre_books", DBooks (books_with_genre (Some (params_id r)) s)) ]] |}.
Proof.
  intros Hbody Hfind Hin Href. unfold genre_delete_post.
  rewrite Hbody. unfold asyncHandler, bind, query, start. cbn [db calls].
  rewrite Hfind, loose_neq_same. cbn [absent orb].
  rewrite (isEmpty_inhabited _ b) by (apply books_with_genre_spec; auto).
  reflexivity.
Qed.

Lemma genre_delete_post_free (r : request) (s : store) (g : Genre) :
  scalar (req_form r) "genreid" = Some (params_id r) ->
  Collection.findById genre_id (Some (params_id r)) (genres s) = Some g ->
  (forall b, In b (books s) -> ~ references_genre (params_id r) b) ->
  genre_delete_post r (start s)
  = {| db := set_genres (Collection.deleteById genre_id (Some (params_id r)) (genres s)) s;
       calls := [Redirect "/catalog/genres"] |}.
Proof.
  intros Hbody Hfind Hno. unfold genre_delete_post.
  rewrite Hbody. unfold asyncHandler, bind, query, start. cbn [db calls].
  rewrite Hfind, loose_neq_same. cbn [absent orb].
  rewrite (isEmpty_no_member (books_with_genre (Some (params_id r)) s)).
  - reflexivity.
  - intros b Hb. apply books_with_genre_spec in Hb. destruct Hb. now apply (Hno b).
Qed.

Lemma book_delete_post_blocked (r : request) (s : store) (bk : Book) (i : BookInstance) :
  scalar (req_form r) "bookid" = Some (params_id r) ->
  Collection.findById book_id (Some (params_id r)) (books s) = Some bk ->
  In i (bookinstances s) -> references_book (params_id r) i ->
  book_delete_post r (start s)
  = {| db := s;
       calls := [Render "book_delete" "Delete Book"
                   [ ("book", DBook bk);
                     ("book_instances",
                      DBookInstances (instances_of_book (Some (params_id r)) s)) ]] |}.
Proof.
  intros Hbody Hfind Hin Href. unfold book_delete_post.
  rewrite Hbody. unfold asyncHandler, bind, query, start. cbn [db calls].
  rewrite Hfind, loose_neq_same. cbn [absent orb].
  rewrite (isEmpty_inhabited _ i) by (apply instances_of_book_spec; auto).
  reflexivity.
Qed.

Lemma book_delete_post_free (r : request) (s : store) (bk : Book) :
  scalar (req_form r) "bookid" = Some (params_id r) ->
  Collection.findById book_id (Some (params_id r)) (books s) = Some bk ->
  (forall i, In i (bookinstances s) -> ~ references_book (params_id r) i) ->
  book_delete_post r (start s)
  = {| db := set_books (Collection.deleteById book_id (Some (params_id r)) (books s)) s;
       calls := [Redirect "/catalog/books"] |}.
Proof.
  intros Hbody Hfind Hno. unfold book_delete_post.
  rewrite Hbody. unfold asyncHandler, bind, query, start. cbn [db calls].
  rewrite Hfind, loose_neq_same. cbn [absent orb].
  rewrite (isEmpty_no_member (instances_of_book (Some (params_id r)) s)).
  - reflexivity.
  - intros i Hi. apply instances_of_book_spec in Hi. destruct Hi. now apply (Hno i).
Qed.

(** C3.  For an author, a genre or a book that exists, deleted with the
    same id in the body and in the path: while some book refers to the
    author or to the genre (some copy refers to the book), the entity stays
    in the store and the delete confirmation is rendered with exactly the
    referring documents; when nothing refers to it, the entity is removed
    from the store and the response is a redirect to the list. *)
Theorem delete_blocked_while_dependents_exist (r : request) (s : store) :
  let id := params_id r in
  (forall a,
      scalar (req_form r) "authorid" = Some id ->
      Collection.findById author_id (Some id) (authors s) = Some a ->
      ((exists b, In b (books s) /\ references_author id b) ->
         author_delete_post r (start s)
         = {| db := s;
              calls := [Render "author_delete" "Delete author"
                          [ ("author", DAuthor a);
                            ("author_books", DBooks (books_by_author (Some id) s)) ]] |}
         /\ (forall b, In b (books_by_author (Some id) s)
                       <-> In b (books s) /\ references_author id b))
      /\ ((forall b, In b (books s) -> ~ references_author id b) ->
          author_delete_post r (start s)
          = {| db := set_authors (Collection.deleteById author_id (Some id) (authors s)) s;
               calls := [Redirect "/catalog/authors"] |}
          /\ Collection.findById author_id (Some id)
               (authors (db (author_delete_post r (start s)))) = None))
  /\ (forall g,
      scalar (req_form r) "genreid" = Some id ->
      Collection.findById genre_id (Some id) (genres s) = Some g ->
      ((exists b, In b (books s) /\ references_genre id b) ->
         genre_delete_post r (start s)
         = {| db := s;
              calls := [Render "genre_delete" "Delete Genre"
                          [ ("genre", DGenre g);
                            ("genre_books", DBooks (books_with_genre (Some id) s)) ]] |}
         /\ (forall b, In b (books_with_genre (Some id) s)
                       <-> In b (books s) /\ references_genre id b))
      /\ ((forall b, In b (books s) -> ~ references_genre id b) ->
          genre_delete_post r (start s)
          = {| db := set_genres (Collection.deleteById genre_id (Some id) (genres s)) s;
               calls := [Redirect "/catalog/genres"] |}
          /\ Collection.findById genre_id (Some id)
               (genres (db (genre_delete_post r (start s)))) = None))
  /\ (forall bk,
      scalar (req_form r) "bookid" = Some id ->
      Collection.findById book_id (Some id) (books s) = Some bk ->
      ((exists i, In i (bookinstances s) /\ references_book id i) ->
         book_delete_post r (start s)
         = {| db := s;
              calls := [Render "book_delete" "Delete Book"
                          [ ("book", DBook bk);
                            ("book_instances",
                             DBookInstances (instances_of_book (Some id) s)) ]] |}
         /\ (forall i, In i (instances_of_book (Some id) s)
                       <-> In i (bookinstances s) /\ references_book id i))
      /\ ((forall i, In i (bookinstances s) -> ~ references_book id i) ->
          book_delete_post r (start s)
          = {| db := set_books (Collection.deleteById book_id (Some id) (books s)) s;
               calls := [Redirect "/catalog/books"] |}
          /\ Collection.findById book_id (Some id)
               (books (db (book_delete_post r (start s)))) = None)).
Proof.
  cbv zeta. split; [|split].
  - intros a Hbody Hfind. split.
    + intros [b [Hin Href]]. split.
      * exact (author_delete_post_blocked r s _ _ Hbody Hfind Hin Href).
      * apply books_by_author_spec.
    + intro Hno. rewrite (author_delete_post_free r s _ Hbody Hfind Hno).
      split; [reflexivity | apply find_after_delete].
  - intros g Hbody Hfind. split.
    + intros [b [Hin Href]]. split.
      * exact (genre_delete_post_blocked r s _ _ Hbody Hfind Hin Href).
      * apply books_with_genre_spec.
    + intro Hno. rewrite (genre_delete_post_free r s _ Hbody Hfind Hno).
      split; [reflexivity | apply find_after_delete].
  - intros bk Hbody Hfind. split.
    + intros [i [Hin Href]]. split.
      * exact (book_delete_post_blocked r s _ _ Hbody Hfind Hin Href).
      * apply instances_of_book_spec.
    + intro Hno. rewrite (book_delete_post_free r s _ Hbody Hfind Hno).
      split; [reflexivity | apply find_after_delete].
Qed.

(** *** Creating genres *)

Lemma same_name_spec (n : string) (g : Genre) :
  same_name collates (Some n) g = true <-> collates_with collates n g.
Proof.
  unfold same_name, collates_with.
  destruct (genre_name g) as [m|].
  - split.
    + intro E. exists m. auto.
    + intros [m' [E1 E2]]. congruence.
  - split; [discriminate | intros [m [E _]]; discriminate].
Qed.

Lemma genre_by_name_found (n : string) (s : store) (g : Genre) :
  genre_by_name collates (Some n) s = Some g ->
  In g (genres s) /\ collates_with collates n g.
Proof.
  unfold genre_by_name. intro H. apply find_some in H.
  destruct H as [Hin Hs]. split; [assumption | now apply same_name_spec].
Qed.

Lemma genre_by_name_exists (n : string) (s : store) :
  (exists g, In g (genres s) /\ collates_with collates n g) ->
  exists g, genre_by_name collates (Some n) s = Some g.
Proof.
  intros [g [Hin Hs]]. unfold genre_by_name.
  destruct (find (same_name collates (Some n)) (genres s)) as [g'|] eqn:E.
  - now exists g'.
  - apply same_name_spec in Hs.
    rewrite (find_none _ _ E g Hin) in Hs. discriminate.
Qed.

Lemma genre_by_name_missing (n : string) (s : store) :
  (forall g, In g (genres s) -> ~ collates_with collates n g) ->
  genre_by_name collates (Some n) s = None.
Proof.
  intro H. destruct (genre_by_name collates (Some n) s) as [g|] eqn:E; [|reflexivity].
  apply genre_by_name_found in E. destruct E as [Hin Hs].
  exfalso. exact (H g Hin Hs).
Qed.

(** What the comparison honours, it finds. *)
Lemma honoured_name_collates (related : string -> string -> Prop)
    (n : string) (g : Genre) :
  honours collates related ->
  same_name_ignoring_case related n g -> collates_with collates n g.
Proof.
  intros H [m [E R]]. exists m. split; [assumption | now apply H].
Qed.

Lemma genre_create_post_valid (r : request) (s : store) (n : string) :
  scalar (req_form r) "name" = Some n ->
  Str.isLength 3 (Str.trim n) = true ->
  genre_create_post iso8601 Date_parse collates r (start s)
  = match genre_by_name collates (Some (Str.escape (Str.trim n))) s with
    | Some g => {| db := s; calls := [Redirect (genre_url g)] |}
    | None =>
        {| db := set_genres
                   (genres s ++ [ {| genre_id := fresh r;
                                     genre_name := Some (Str.escape (Str.trim n)) |} ])%list s;
           calls := [Redirect ("/catalog/genre/" ++ fresh r)] |}
    end.
Proof.
  intros Hn Hlen. unfold genre_create_post, genre_validation, genre_chains.
  eval_handler. rewrite Hn. eval_handler.
  rewrite Hlen. eval_handler.
  unfold asyncHandler, bind, query, start. cbn [db calls].
  destruct (genre_by_name collates _ s); reflexivity.
Qed.

(** C4.  The comparison is the one of the store's collation, and
    [ignoring_case] any equality up to the case of letters that this
    comparison honours (one of strength 2 honours them all).  A genre
    submission whose trimmed name has a length of at least three: when the
    store holds a genre whose name equals the submitted name (as the
    validation chain leaves it: trimmed and escaped) up to case, nothing is
    persisted and the response is a redirect to an existing genre, one the
    comparison equates with the name; a genre is saved only when no genre
    of the store equals the name up to case, and it is saved, with a
    redirect to it, when the comparison equates none.  Creating Fiction and
    then FICTION in an empty store leaves the single genre Fiction, and the
    second response is a redirect to it. *)
Theorem genre_create_post_case_insensitive
    (ignoring_case : string -> string -> Prop) :
  honours collates ignoring_case ->
  (forall (r : request) (s : store) (n : string),
      scalar (req_form r) "name" = Some n ->
      Str.isLength 3 (Str.trim n) = true ->
      let name := Str.escape (Str.trim n) in
      let w := genre_create_post iso8601 Date_parse collates r (start s) in
      ((exists g, In g (genres s) /\ same_name_ignoring_case ignoring_case name g) ->
         db w = s
         /\ exists g, In g (genres s) /\ collates_with collates name g
                      /\ calls w = [Redirect (genre_url g)])
      /\ (db w <> s ->
          forall g, In g (genres s) -> ~ same_name_ignoring_case ignoring_case name g)
      /\ ((forall g, In g (genres s) -> ~ collates_with collates name g) ->
          w = {| db := set_genres
                         (genres s ++ [ {| genre_id := fresh r;
                                           genre_name := Some name |} ])%list s;
                 calls := [Redirect ("/catalog/genre/" ++ fresh r)] |}))
  /\ (ignoring_case "Fiction" "FICTION" ->
      forall (id1 id2 p1 p2 : string),
        let w1 := genre_create_post iso8601 Date_parse collates
                    (mk_request p1 [("name", "Fiction")] Absent id1) (start empty_store) in
        let w2 := genre_create_post iso8601 Date_parse collates
                    (mk_request p2 [("name", "FICTION")] Absent id2) (start (db w1)) in
        genres (db w1) = [a_genre id1 "Fiction"]
        /\ genres (db w2) = [a_genre id1 "Fiction"]
        /\ calls w2 = [Redirect (genre_url (a_genre id1 "Fiction"))]).
Proof.
  intro Hon.
  assert (Dup : forall r s n,
             scalar (req_form r) "name" = Some n ->
             Str.isLength 3 (Str.trim n) = true ->
             (exists g, In g (genres s)
                        /\ same_name_ignoring_case ignoring_case (Str.escape (Str.trim n)) g) ->
             db (genre_create_post iso8601 Date_parse collates r (start s)) = s
             /\ exists g, In g (genres s)
                          /\ collates_with collates (Str.escape (Str.trim n)) g
                          /\ calls (genre_create_post iso8601 Date_parse collates r (start s))
                             = [Redirect (genre_url g)]).
  { intros r s n Hn Hlen [g0 [Hin0 Hs0]].
    assert (Hex : exists g, In g (genres s)
                            /\ collates_with collates (Str.escape (Str.trim n)) g).
    { exists g0. split; [assumption|]. now apply (honoured_name_collates ignoring_case). }
    destruct (genre_by_name_exists _ s Hex) as [g Hg].
    destruct (genre_by_name_found _ _ _ Hg) as [Hin Hs].
    rewrite (genre_create_post_valid r s n Hn Hlen), Hg. cbn [db calls].
    split; [reflexivity|]. exists g. auto. }
  split.
  - intros r s n Hn Hlen name w. subst name w. split; [|split].
    + now apply Dup.
    + intros Hch g Hin Hs. apply Hch.
      now destruct (Dup r s n Hn Hlen (ex_intro _ g (conj Hin Hs))).
    + intro Hno. rewrite (genre_create_post_valid r s n Hn Hlen).
      now rewrite (genre_by_name_missing _ s Hno).
  - intros Hfic id1 id2 p1 p2. cbv zeta.
    assert (E1 : genre_create_post iso8601 Date_parse collates
                   (mk_request p1 [("name", "Fiction")] Absent id1) (start empty_store)
                 = {| db := set_genres [a_genre id1 "Fiction"] empty_store;
                      calls := [Redirect ("/catalog/genre/" ++ id1)] |}).
    { now rewrite (genre_create_post_valid
                     (mk_request p1 [("name", "Fiction")] Absent id1)
                     empty_store "Fiction" eq_refl eq_refl). }
    rewrite E1. cbn [db].
    rewrite (genre_create_post_valid
               (mk_request p2 [("name", "FICTION")] Absent id2)
               _ "FICTION" eq_refl eq_refl).
    assert (G : genre_by_name collates (Some (Str.escape (Str.trim "FICTION")))
                  (set_genres [a_genre id1 "Fiction"] empty_store)
                = Some (a_genre id1 "Fiction")).
    { change (Str.escape (Str.trim "FICTION")) with "FICTION".
      unfold genre_by_name. cbn [genres set_genres find same_name genre_name a_genre].
      now rewrite (Hon _ _ Hfic). }
    rewrite G. repeat split; reflexivity.
Qed.

Lemma errors_of_nonempty (fld : string) (errs : list verror) (e : verror) :
  errors_of fld errs = [e] -> errs <> [].
Proof. intros H E. subst errs. discriminate. Qed.

(** *** No write when validation fails *)

Lemma bookinstance_create_post_invalid (r : request) (s : store) :
  snd (bookinstance_validation iso8601 Date_parse (req_form r)) <> [] ->
  db (bookinstance_create_post iso8601 Date_parse r (start s)) = s.
Proof.
  intro H. unfold bookinstance_create_post.
  destruct (bookinstance_validation iso8601 Date_parse (req_form r)) as [b errors].
  simpl in H. destruct errors as [|e errors]; [congruence|].
  unfold asyncHandler, bind, query, book_toString, start. simpl.
  destruct (cast_string (field b "book")); reflexivity.
Qed.

Lemma bookinstance_update_post_invalid (r : request) (s : store) :
  snd (bookinstance_validation iso8601 Date_parse (req_form r)) <> [] ->
  db (bookinstance_update_post iso8601 Date_parse r (start s)) = s.
Proof.
  intro H. unfold bookinstance_update_post.
  destruct (bookinstance_validation iso8601 Date_parse (req_form r)) as [b errors].
  simpl in H. destruct errors as [|e errors]; [congruence|].
  unfold asyncHandler, bind, query, book_toString, start. simpl.
  destruct (cast_string (field b "book")); reflexivity.
Qed.

Lemma author_create_post_invalid (r : request) (s : store) :
  snd (author_validation iso8601 Date_parse (req_form r)) <> [] ->
  db (author_create_post iso8601 Date_parse r (start s)) = s.
Proof.
  intro H. now rewrite (author_create_post_invalid_renders r s H).
Qed.

Lemma author_update_post_invalid (r : request) (s : store) :
  snd (author_validation iso8601 Date_parse (req_form r)) <> [] ->
  db (author_update_post iso8601 Date_parse r (start s)) = s.
Proof.
  intro H. unfold author_update_post.
  destruct (author_validation iso8601 Date_parse (req_form r)) as [b errors].
  simpl in H. destruct errors as [|e errors]; [congruence|]. reflexivity.
Qed.

(** *** Optional dates *)

Lemma due_back_contract (f : form) :
  optional_date_contract (fun v => iso8601 v = false) "due_back" "Invalid date."
    (bookinstance_validation iso8601 Date_parse)
    (bookinstance_create_post iso8601 Date_parse)
    (bookinstance_update_post iso8601 Date_parse) f.
Proof.
  split.
  - intro H. unfold bookinstance_validation, bookinstance_chains.
    destruct H as [H|H]; eval_chains; rewrite H; eval_chains;
      (split; [split_conditions; reflexivity | reflexivity]).
  - intros v Hv Hne Hiso.
    assert (E : errors_of "due_back"
                  (snd (bookinstance_validation iso8601 Date_parse f))
                = [ {| path := "due_back"; msg := "Invalid date." |} ]).
    { unfold bookinstance_validation, bookinstance_chains.
      eval_chains. rewrite Hv. destruct v as [|c v]; [congruence|].
      eval_chains. rewrite Hiso. split_conditions; reflexivity. }
    split; [exact E|]. intros r s Hr. subst f.
    apply errors_of_nonempty in E. split.
    + now apply bookinstance_create_post_invalid.
    + now apply bookinstance_update_post_invalid.
Qed.

Lemma date_of_birth_contract (f : form) :
  optional_date_contract (fun v => iso8601 v = false)
    "date_of_birth" "Invalid date of birth."
    (author_validation iso8601 Date_parse)
    (author_create_post iso8601 Date_parse)
    (author_update_post iso8601 Date_parse) f.
Proof.
  split.
  - intro H. unfold author_validation, author_chains.
    destruct H as [H|H]; eval_chains; rewrite H; eval_chains;
      (split; [split_conditions; reflexivity | reflexivity]).
  - intros v Hv Hne Hiso.
    assert (E : errors_of "date_of_birth"
                  (snd (author_validation iso8601 Date_parse f))
                = [ {| path := "date_of_birth"; msg := "Invalid date of birth." |} ]).
    { unfold author_validation, author_chains.
      eval_chains. rewrite Hv. destruct v as [|c v]; [congruence|].
      eval_chains. rewrite Hiso. split_conditions; reflexivity. }
    split; [exact E|]. intros r s Hr. subst f.
    apply errors_of_nonempty in E. split.
    + now apply author_create_post_invalid.
    + now apply author_update_post_invalid.
Qed.

Lemma date_of_death_contract (f : form) :
  optional_date_contract (fun v => iso8601 v = false)
    "date_of_death" "Invalid date of death."
    (author_validation iso8601 Date_parse)
    (author_create_post iso8601 Date_parse)
    (author_update_post iso8601 Date_parse) f.
Proof.
  split.
  - intro H. unfold author_validation, author_chains.
    destruct H as [H|H]; eval_chains; rewrite H; eval_chains;
      (split; [split_conditions; reflexivity | reflexivity]).
  - intros v Hv Hne Hiso.
    assert (E : errors_of "date_of_death"
                  (snd (author_validation iso8601 Date_parse f))
                = [ {| path := "date_of_death"; msg := "Invalid date of death." |} ]).
    { unfold author_validation, author_chains.
      eval_chains. rewrite Hv. destruct v as [|c v]; [congruence|].
      eval_chains. rewrite Hiso. split_conditions; reflexivity. }
    split; [exact E|]. intros r s Hr. subst f.
    apply errors_of_nonempty in E. split.
    + now apply author_create_post_invalid.
    + now apply author_update_post_invalid.
Qed.

(** C5 (as amended).  For each optional date field, an absent or empty
    value gives no error for the field and leaves the date of the document
    absent; a non-empty value that is not ISO 8601 gives exactly one error
    for the field, with the message of that field's chain, and neither the
    create nor the update handler changes the store.  The message is
    [Invalid date.] for [due_back], [Invalid date of birth.] for
    [date_of_birth] and [Invalid date of death.] for [date_of_death]. *)
Theorem optional_date_fields (f : form) :
  optional_date_contract (fun v => iso8601 v = false) "due_back" "Invalid date."
    (bookinstance_validation iso8601 Date_parse)
    (bookinstance_create_post iso8601 Date_parse)
    (bookinstance_update_post iso8601 Date_parse) f
  /\ optional_date_contract (fun v => iso8601 v = false)
       "date_of_birth" "Invalid date of birth."
       (author_validation iso8601 Date_parse)
       (author_create_post iso8601 Date_parse)
       (author_update_post iso8601 Date_parse) f
  /\ optional_date_contract (fun v => iso8601 v = false)
       "date_of_death" "Invalid date of death."
       (author_validation iso8601 Date_parse)
       (author_create_post iso8601 Date_parse)
       (author_update_post iso8601 Date_parse) f.
Proof.
  split; [apply due_back_contract | split].
  - apply date_of_birth_contract.
  - apply date_of_death_contract.
Qed.

(** *** The status of a book instance *)

Lemma find_after_update {D : Type} (id_of : D -> oid) (i : oid) (d old : D)
    (l : list D) :
  id_of d = i ->
  Collection.findById id_of (Some i) l = Some old ->
  Collection.findById id_of (Some i) (Collection.updateById id_of i d l) = Some d.
Proof.
  intros Hid. simpl. induction l as [|x l IH]; [discriminate|]. simpl.
  destruct (Collection.has_id id_of i x) eqn:E.
  - intros _. unfold Collection.has_id. rewrite Hid, String.eqb_refl. reflexivity.
  - rewrite E. exact IH.
Qed.

Lemma bookinstance_create_post_valid (r : request) (s : store) :
  snd (bookinstance_validation iso8601 Date_parse (req_form r)) = [] ->
  bookinstance_create_post iso8601 Date_parse r (start s)
  = let created := new_BookInstance (fresh r)
                     (fst (bookinstance_validation iso8601 Date_parse (req_form r))) in
    {| db := set_bookinstances (bookinstances s ++ [created])%list s;
       calls := [Redirect (bookinstance_url created)] |}.
Proof.
  intro H. unfold bookinstance_create_post.
  destruct (bookinstance_validation iso8601 Date_parse (req_form r)) as [b errors].
  simpl in H. subst errors. reflexivity.
Qed.

Lemma bookinstance_update_post_valid (r : request) (s : store) :
  snd (bookinstance_validation iso8601 Date_parse (req_form r)) = [] ->
  bookinstance_update_post iso8601 Date_parse r (start s)
  = let updated := new_BookInstance (params_id r)
                     (fst (bookinstance_validation iso8601 Date_parse (req_form r))) in
    {| db := set_bookinstances
               (Collection.updateById bi_id (params_id r) updated (bookinstances s)) s;
       calls := [Redirect (bookinstance_url updated)] |}.
Proof.
  intro H. unfold bookinstance_update_post.
  destruct (bookinstance_validation iso8601 Date_parse (req_form r)) as [b errors].
  simpl in H. subst errors. reflexivity.
Qed.

(** C10.  The validation of a book instance never yields an error for
    [status], and its errors do not depend on the status submitted.  When
    the submission passes validation, a submitted status [st] (the empty
    string included) is the escaped [st] in the document: create adds that
    document to the store, update writes it over the instance of the path
    id when there is one. *)
Theorem bookinstance_status_never_rejected (r : request) (s : store) (st : string) :
  scalar (req_form r) "status" = Some st ->
  let v := bookinstance_validation iso8601 Date_parse (req_form r) in
  let created := new_BookInstance (fresh r) (fst v) in
  let updated := new_BookInstance (params_id r) (fst v) in
  errors_of "status" (snd v) = []
  /\ (forall st',
        snd (bookinstance_validation iso8601 Date_parse
               (with_scalar "status" st' (req_form r))) = snd v)
  /\ bi_status created = Some (Str.escape st)
  /\ bi_status updated = Some (Str.escape st)
  /\ (snd v = [] ->
        bookinstance_create_post iso8601 Date_parse r (start s)
        = {| db := set_bookinstances (bookinstances s ++ [created])%list s;
             calls := [Redirect (bookinstance_url created)] |}
        /\ bookinstance_update_post iso8601 Date_parse r (start s)
           = {| db := set_bookinstances
                        (Collection.updateById bi_id (params_id r) updated (bookinstances s)) s;
                calls := [Redirect (bookinstance_url updated)] |}
        /\ (forall old,
              Collection.findById bi_id (Some (params_id r)) (bookinstances s) = Some old ->
              Collection.findById bi_id (Some (params_id r))
                (bookinstances (db (bookinstance_update_post iso8601 Date_parse r (start s))))
              = Some updated)).
Proof.
  intros Hst v created updated. subst v created updated.
  split; [|split; [|split; [|split]]].
  - unfold bookinstance_validation, bookinstance_chains. eval_chains.
    split_conditions; reflexivity.
  - intro st'. unfold bookinstance_validation, bookinstance_chains. eval_chains.
    reflexivity.
  - unfold bookinstance_validation, bookinstance_chains. eval_chains.
    now rewrite Hst.
  - unfold bookinstance_validation, bookinstance_chains. eval_chains.
    now rewrite Hst.
  - intro Hok. rewrite (bookinstance_create_post_valid r s Hok).
    rewrite (bookinstance_update_post_valid r s Hok). cbv zeta.
    split; [reflexivity | split; [reflexivity|]].
    intros old Hold. cbn [db bookinstances set_bookinstances].
    now apply (find_after_update bi_id _ _ old).
Qed.

(** *** The genre field of a book *)

(** The first middleware makes [genre] an array: none for an absent
    field, the one value of a scalar, the array itself. *)
Lemma genre_to_array_spec (b : req_body) :
  genre (genre_to_array b)
  = Many (match genre b with
          | Absent => []
          | One g => [g]
          | Many l => l
          end).
Proof. unfold genre_to_array. simpl. destruct (genre b); reflexivity. Qed.

(** The document both handlers build holds the submitted values in order,
    each escaped. *)
Lemma book_genre_of_submission (f : form) (id : oid) :
  book_genre (new_Book id (fst (book_create_validation iso8601 Date_parse f)))
  = map Str.escape (cast_refs (genre_input f))
  /\ book_genre (new_Book id (fst (book_update_validation iso8601 Date_parse f)))
     = map Str.escape (cast_refs (genre_input f)).
Proof.
  unfold book_create_validation, book_update_validation,
    book_create_chains, book_update_chains.
  eval_chains. destruct (genre_input f); split; reflexivity.
Qed.

(** The update handler stores that document over an existing book. *)
Lemma book_update_post_valid (r : request) (s : store) (old : Book) :
  snd (book_update_validation iso8601 Date_parse (req_form r)) = [] ->
  Collection.findById book_id (Some (params_id r)) (books s) = Some old ->
  let updated := new_Book (params_id r)
                   (fst (book_update_validation iso8601 Date_parse (req_form r))) in
  book_update_post iso8601 Date_parse r (start s)
  = {| db := set_books (Collection.updateById book_id (params_id r) updated (books s)) s;
       calls := [Redirect (book_url old)] |}.
Proof.
  intros H Hold updated. subst updated. unfold book_update_post.
  destruct (book_update_validation iso8601 Date_parse (req_form r)) as [b errors].
  simpl in H. subst errors.
  unfold asyncHandler, bind, query, write, start. cbn [db calls isEmpty negb].
  rewrite Hold. reflexivity.
Qed.

(** C6 (the code departs from the claim).  For a valid book submission the
    document that [book_create_post] builds holds the submitted genre
    values in order (none, the one value, or the values of the array, each
    escaped), but the handler stores no book: the collection of books is
    the one it started from. *)
Theorem book_create_post_genres_not_stored
    (r : request) (s : store) (t a sm i : string) :
  scalar (req_form r) "title" = Some t ->
  scalar (req_form r) "author" = Some a ->
  scalar (req_form r) "summary" = Some sm ->
  scalar (req_form r) "isbn" = Some i ->
  Str.isLength 1 (Str.trim t) = true -> Str.isLength 1 (Str.trim a) = true ->
  Str.isLength 1 (Str.trim sm) = true -> Str.isLength 1 (Str.trim i) = true ->
  book_genre (new_Book (fresh r)
                (fst (book_create_validation iso8601 Date_parse (req_form r))))
  = map Str.escape (cast_refs (genre_input (req_form r)))
  /\ books (db (book_create_post iso8601 Date_parse r (start s))) = books s.
Proof.
  intros Ht Ha Hs Hi Vt Va Vs Vi. split.
  - exact (proj1 (book_genre_of_submission (req_form r) (fresh r))).
  - destruct (book_create_post_valid r s t a sm i Ht Ha Hs Hi Vt Va Vs Vi) as [_ E].
    now rewrite E.
Qed.

(** *** Forms for an id that is not in the store *)

(** C7 (the code departs from the claim).  On an id that finds nothing,
    [book_update_get] signals NotFound and [author_update_get] redirects
    to the author list, but [genre_update_get] renders the update form
    with [null] for the genre and [bookinstance_update_get] throws a
    TypeError, handed to [next]. *)
Theorem update_get_of_absent_entity (r : request) (s : store) :
  (Collection.findById book_id (Some (params_id r)) (books s) = None ->
     book_update_get r (start s)
     = {| db := s; calls := [Next (HttpError 404 "Book not found")] |})
  /\ (Collection.findById author_id (Some (params_id r)) (authors s) = None ->
       author_update_get r (start s)
       = {| db := s; calls := [Redirect "/catalog/authors"] |})
  /\ (Collection.findById genre_id (Some (params_id r)) (genres s) = None ->
       genre_update_get r (start s)
       = {| db := s;
            calls := [Render "genre_form" "Update genre"
                        [ ("genre", DNull); ("errors", DUndefined) ]] |})
  /\ (Collection.findById bi_id (Some (params_id r)) (bookinstances s) = None ->
       bookinstance_update_get r (start s)
       = {| db := s;
            calls := [Next (TypeError
                        "Cannot read properties of null (reading 'book')")] |}).
Proof.
  repeat split; intro H.
  - unfold book_update_get, asyncHandler, bind, query, start. cbn [db calls].
    now rewrite H.
  - unfold author_update_get, asyncHandler, bind, query, start. cbn [db calls].
    now rewrite H.
  - unfold genre_update_get, asyncHandler, bind, query, start. cbn [db calls].
    now rewrite H.
  - unfold bookinstance_update_get, asyncHandler, bind, query, start. cbn [db calls].
    now rewrite H.
Qed.

(** C8 (the code departs from the claim).  On an id that finds nothing,
    [genre_delete_get] and [bookinstance_delete_get] make the one call, a
    redirect to the list; [book_delete_get] and [author_delete_get] make
    two: the redirect, and then the render of the delete confirmation with
    [null] for the entity. *)
Theorem delete_get_of_absent_entity (r : request) (s : store) :
  (Collection.findById book_id (Some (params_id r)) (books s) = None ->
     book_delete_get r (start s)
     = {| db := s;
          calls := [ Redirect "/catalog/books";
                     Render "book_delete" "Delete Book"
                       [ ("book", DNull);
                         ("book_instances",
                          DBookInstances (instances_of_book (Some (params_id r)) s)) ] ] |})
  /\ (Collection.findById author_id (Some (params_id r)) (authors s) = None ->
       author_delete_get r (start s)
       = {| db := s;
            calls := [ Redirect "/catalog/authors";
                       Render "author_delete" "Delete author"
                         [ ("author", DNull);
                           ("author_books",
                            DBooks (books_by_author (Some (params_id r)) s)) ] ] |})
  /\ (Collection.findById genre_id (Some (params_id r)) (genres s) = None ->
       genre_delete_get r (start s)
       = {| db := s; calls := [Redirect "/catalog/genres"] |})
  /\ (Collection.findById bi_id (Some (params_id r)) (bookinstances s) = None ->
       bookinstance_delete_get r (start s)
       = {| db := s; calls := [Redirect "/catalog/bookinstances"] |}).
Proof.
  repeat split; intro H.
  - unfold book_delete_get, asyncHandler, bind, query, start. cbn [db calls].
    now rewrite H.
  - unfold author_delete_get, asyncHandler, bind, query, start. cbn [db calls].
    now rewrite H.
  - unfold genre_delete_get, asyncHandler, bind, query, start. cbn [db calls].
    now rewrite H.
  - unfold bookinstance_delete_get, asyncHandler, bind, query, start. cbn [db calls].
    now rewrite H.
Qed.

(** *** Deleting a book instance *)

(** C9 (the code departs from the claim).  For an existing instance
    deleted with the same id in the body and in the path, the instance is
    removed whatever else the store holds.  The response is a redirect to
    the book of the instance when that book is found; when it is not, no
    redirect is made: reading the [url] of [null] throws after the delete
    and the TypeError is handed to [next]. *)
Theorem bookinstance_delete_post_removes (r : request) (s : store) (i : BookInstance) :
  scalar (req_form r) "bookinstanceid" = Some (params_id r) ->
  Collection.findById bi_id (Some (params_id r)) (bookinstances s) = Some i ->
  let removed :=
    set_bookinstances
      (Collection.deleteById bi_id (Some (params_id r)) (bookinstances s)) s in
  (forall bk,
      Collection.findById book_id (bi_book i) (books s) = Some bk ->
      bookinstance_delete_post r (start s)
      = {| db := removed; calls := [Redirect (book_url bk)] |})
  /\ (Collection.findById book_id (bi_book i) (books s) = None ->
       bookinstance_delete_post r (start s)
       = {| db := removed;
            calls := [Next (TypeError
                        "Cannot read properties of null (reading 'url')")] |})
  /\ Collection.findById bi_id (Some (params_id r)) (bookinstances removed) = None.
Proof.
  intros Hbody Hfind removed. subst removed.
  assert (E : bookinstance_delete_post r (start s)
              = match Collection.findById book_id (bi_book i) (books s) with
                | Some bk =>
                    {| db := set_bookinstances
                               (Collection.deleteById bi_id (Some (params_id r))
                                  (bookinstances s)) s;
                       calls := [Redirect (book_url bk)] |}
                | None =>
                    {| db := set_bookinstances
                               (Collection.deleteById bi_id (Some (params_id r))
                                  (bookinstances s)) s;
                       calls := [Next (TypeError
                                   "Cannot read properties of null (reading 'url')")] |}
                end).
  { unfold bookinstance_delete_post. rewrite Hbody.
    unfold asyncHandler, bind, query, write, start. cbn [db calls].
    rewrite Hfind, loose_neq_same. cbn [db calls].
    destruct (Collection.findById book_id (bi_book i) (books s)); reflexivity. }
  split; [|split].
  - intros bk Hbk. now rewrite E, Hbk.
  - intro Hbk. now rewrite E, Hbk.
  - cbn [bookinstances set_bookinstances]. apply find_after_delete.
Qed.

End Properties.

(** ** The properties on concrete requests

    The recogniser of the examples is [iso8601_calendar]. *)

Lemma book_create_post_valid_throws_witness :
  db (book_create_post iso8601_calendar parse_calendar (submit_book Absent) (start library))
  = library
  /\ calls (book_create_post iso8601_calendar parse_calendar (submit_book Absent) (start library))
     = [Next (TypeError "book.dave is not a function")].
Proof.
  refine (proj2 (book_create_post_valid_throws iso8601_calendar parse_calendar
                   (submit_book Absent) library "Dune" "a1" "Sand" "9780441013593"
                   eq_refl eq_refl eq_refl eq_refl _ _ _ _));
    reflexivity.
Defined.

Lemma author_update_post_invalid_throws_witness :
  author_update_post iso8601_calendar parse_calendar
    (mk_request "a1" [("first_name", ""); ("family_name", "Her bert")] Absent "")
    (start library)
  = {| db := library; calls := [Next (ReferenceError "author is not defined")] |}.
Proof.
  apply author_update_post_invalid_throws. vm_compute. discriminate.
Defined.

Lemma delete_blocked_while_dependents_exist_witness :
  author_delete_post (delete_request "authorid" "a1") (start library)
  = {| db := library;
       calls := [Render "author_delete" "Delete author"
                   [ ("author", DAuthor (an_author "a1"));
                     ("author_books", DBooks [a_book "b1" "a1" ["g1"]]) ]] |}
  /\ author_delete_post (delete_request "authorid" "a1") (start lone_entities)
     = {| db := set_authors [] lone_entities; calls := [Redirect "/catalog/authors"] |}
  /\ genre_delete_post (delete_request "genreid" "g1") (start library)
     = {| db := library;
          calls := [Render "genre_delete" "Delete Genre"
                      [ ("genre", DGenre (a_genre "g1" "Fiction"));
                        ("genre_books", DBooks [a_book "b1" "a1" ["g1"]]) ]] |}
  /\ genre_delete_post (delete_request "genreid" "g1") (start lone_entities)
     = {| db := set_genres [] lone_entities; calls := [Redirect "/catalog/genres"] |}
  /\ book_delete_post (delete_request "bookid" "b1") (start library)
     = {| db := library;
          calls := [Render "book_delete" "Delete Book"
                      [ ("book", DBook (a_book "b1" "a1" ["g1"]));
                        ("book_instances", DBookInstances [a_copy "i1" "b1"]) ]] |}
  /\ book_delete_post (delete_request "bookid" "b1") (start lone_entities)
     = {| db := set_books [] lone_entities; calls := [Redirect "/catalog/books"] |}.
Proof.
  repeat apply conj.
  - refine (proj1 (proj1 (proj1 (delete_blocked_while_dependents_exist
                                   (delete_request "authorid" "a1") library)
                            (an_author "a1") eq_refl eq_refl) _)).
    exists (a_book "b1" "a1" ["g1"]). split; [now left | reflexivity].
  - refine (proj1 (proj2 (proj1 (delete_blocked_while_dependents_exist
                                   (delete_request "authorid" "a1") lone_entities)
                            (an_author "a1") eq_refl eq_refl) _)).
    intros b [<-|[]]. discriminate.
  - refine (proj1 (proj1 (proj1 (proj2 (delete_blocked_while_dependents_exist
                                   (delete_request "genreid" "g1") library))
                            (a_genre "g1" "Fiction") eq_refl eq_refl) _)).
    exists (a_book "b1" "a1" ["g1"]). split; [now left | now left].
  - refine (proj1 (proj2 (proj1 (proj2 (delete_blocked_while_dependents_exist
                                   (delete_request "genreid" "g1") lone_entities))
                            (a_genre "g1" "Fiction") eq_refl eq_refl) _)).
    intros b [<-|[]] [].
  - refine (proj1 (proj1 (proj2 (proj2 (delete_blocked_while_dependents_exist
                                   (delete_request "bookid" "b1") library))
                            (a_book "b1" "a1" ["g1"]) eq_refl eq_refl) _)).
    exists (a_copy "i1" "b1"). split; [now left | reflexivity].
  - refine (proj1 (proj2 (proj2 (proj2 (delete_blocked_while_dependents_exist
                                   (delete_request "bookid" "b1") lone_entities))
                            (a_book "b1" "a9" []) eq_refl eq_refl) _)).
    intros i [].
Defined.

(** The comparison of the examples honours equality up to the case of the
    letters A to Z. *)
Lemma ignoring_ascii_case_honoured : honours ascii_fold_eqb ignoring_ascii_case.
Proof. intros a b E. unfold ascii_fold_eqb. now apply String.eqb_eq. Qed.

Lemma genre_create_post_case_insensitive_witness :
  (db (genre_create_post iso8601_calendar parse_calendar ascii_fold_eqb
         (mk_request "" [("name", " FICTION ")] Absent "g2") (start library))
   = library
   /\ exists g, In g (genres library) /\ collates_with ascii_fold_eqb "FICTION" g
        /\ calls (genre_create_post iso8601_calendar parse_calendar ascii_fold_eqb
                    (mk_request "" [("name", " FICTION ")] Absent "g2") (start library))
           = [Redirect (genre_url g)])
  /\ genre_create_post iso8601_calendar parse_calendar ascii_fold_eqb
       (mk_request "" [("name", "Poetry")] Absent "g2") (start library)
     = {| db := set_genres [a_genre "g1" "Fiction"; a_genre "g2" "Poetry"] library;
          calls := [Redirect "/catalog/genre/g2"] |}.
Proof.
  split.
  - refine (proj1 (proj1 (genre_create_post_case_insensitive
                            iso8601_calendar parse_calendar ascii_fold_eqb
                            ignoring_ascii_case ignoring_ascii_case_honoured)
                     (mk_request "" [("name", " FICTION ")] Absent "g2") library
                     " FICTION " eq_refl eq_refl) _).
    exists (a_genre "g1" "Fiction"). split; [now left|].
    exists "Fiction". split; reflexivity.
  - refine (proj2 (proj2 (proj1 (genre_create_post_case_insensitive
                                   iso8601_calendar parse_calendar ascii_fold_eqb
                                   ignoring_ascii_case ignoring_ascii_case_honoured)
                            (mk_request "" [("name", "Poetry")] Absent "g2") library
                            "Poetry" eq_refl eq_refl)) _).
    intros g [<-|[]] [m [E1 E2]]. injection E1 as <-. discriminate.
Defined.

Lemma optional_date_fields_witness :
  errors_of "date_of_birth"
    (snd (author_validation iso8601_calendar parse_calendar
            (mk_form (author_fields "tomorrow") Absent)))
  = [ {| path := "date_of_birth"; msg := "Invalid date of birth." |} ]
  /\ errors_of "date_of_death"
       (snd (author_validation iso8601_calendar parse_calendar
               (mk_form (author_fields "tomorrow") Absent)))
     = []
  /\ errors_of "due_back"
       (snd (bookinstance_validation iso8601_calendar parse_calendar
               (mk_form (copy_fields "Loaned" "next week") Absent)))
     = [ {| path := "due_back"; msg := "Invalid date." |} ]
  /\ db (bookinstance_create_post iso8601_calendar parse_calendar
           (mk_request "" (copy_fields "Loaned" "next week") Absent "i2")
           (start library))
     = library.
Proof.
  repeat apply conj.
  - refine (proj1 (proj2 (proj1 (proj2 (optional_date_fields
              iso8601_calendar parse_calendar
              (mk_form (author_fields "tomorrow") Absent))))
              "tomorrow" eq_refl _ eq_refl)).
    discriminate.
  - refine (proj1 (proj1 (proj2 (proj2 (optional_date_fields
              iso8601_calendar parse_calendar
              (mk_form (author_fields "tomorrow") Absent)))) _)).
    right. reflexivity.
  - refine (proj1 (proj2 (proj1 (optional_date_fields
              iso8601_calendar parse_calendar
              (mk_form (copy_fields "Loaned" "next week") Absent)))
              "next week" eq_refl _ eq_refl)).
    discriminate.
  - refine (proj1 (proj2 (proj2 (proj1 (optional_date_fields
              iso8601_calendar parse_calendar
              (mk_form (copy_fields "Loaned" "next week") Absent)))
              "next week" eq_refl _ eq_refl)
              (mk_request "" (copy_fields "Loaned" "next week") Absent "i2")
              library eq_refl)).
    discriminate.
Defined.

(** C5 as stated fails: with the message [Invalid date.] claimed for every
    optional date field, the contract does not hold for [date_of_birth].
    A birth date that is no ISO 8601 date gives the error [Invalid date of
    birth.] *)
Lemma date_of_birth_message_is_not_invalid_date :
  ~ optional_date_contract (fun v => iso8601_calendar v = false)
      "date_of_birth" "Invalid date."
      (author_validation iso8601_calendar parse_calendar)
      (author_create_post iso8601_calendar parse_calendar)
      (author_update_post iso8601_calendar parse_calendar)
      (mk_form (author_fields "tomorrow") Absent).
Proof.
  intros [_ H].
  destruct (H "tomorrow" eq_refl ltac:(discriminate) eq_refl) as [E _].
  vm_compute in E. discriminate E.
Qed.

Lemma book_create_post_genres_not_stored_witness :
  book_genre (new_Book "b2"
                (fst (book_create_validation iso8601_calendar parse_calendar
                        (req_form (submit_book (Many ["g1"; "g2"; "g3"]))))))
  = ["g1"; "g2"; "g3"]
  /\ books (db (book_create_post iso8601_calendar parse_calendar
                  (submit_book (Many ["g1"; "g2"; "g3"])) (start library)))
     = [a_book "b1" "a1" ["g1"]].
Proof.
  refine (book_create_post_genres_not_stored iso8601_calendar parse_calendar
            (submit_book (Many ["g1"; "g2"; "g3"])) library
            "Dune" "a1" "Sand" "9780441013593"
            eq_refl eq_refl eq_refl eq_refl _ _ _ _);
    reflexivity.
Defined.

Lemma update_get_of_absent_entity_witness :
  book_update_get (get_request "zz") (start library)
  = {| db := library; calls := [Next (HttpError 404 "Book not found")] |}
  /\ author_update_get (get_request "zz") (start library)
     = {| db := library; calls := [Redirect "/catalog/authors"] |}
  /\ genre_update_get (get_request "zz") (start library)
     = {| db := library;
          calls := [Render "genre_form" "Update genre"
                      [ ("genre", DNull); ("errors", DUndefined) ]] |}
  /\ bookinstance_update_get (get_request "zz") (start library)
     = {| db := library;
          calls := [Next (TypeError
                      "Cannot read properties of null (reading 'book')")] |}.
Proof.
  destruct (update_get_of_absent_entity (get_request "zz") library)
    as [H1 [H2 [H3 H4]]].
  repeat apply conj; [apply H1 | apply H2 | apply H3 | apply H4]; reflexivity.
Defined.

Lemma delete_get_of_absent_entity_witness :
  book_delete_get (get_request "zz") (start library)
  = {| db := library;
       calls := [ Redirect "/catalog/books";
                  Render "book_delete" "Delete Book"
                    [ ("book", DNull); ("book_instances", DBookInstances []) ] ] |}
  /\ author_delete_get (get_request "zz") (start library)
     = {| db := library;
          calls := [ Redirect "/catalog/authors";
                     Render "author_delete" "Delete author"
                       [ ("author", DNull); ("author_books", DBooks []) ] ] |}
  /\ genre_delete_get (get_request "zz") (start library)
     = {| db := library; calls := [Redirect "/catalog/genres"] |}
  /\ bookinstance_delete_get (get_request "zz") (start library)
     = {| db := library; calls := [Redirect "/catalog/bookinstances"] |}.
Proof.
  destruct (delete_get_of_absent_entity (get_request "zz") library)
    as [H1 [H2 [H3 H4]]].
  repeat apply conj; [apply H1 | apply H2 | apply H3 | apply H4]; reflexivity.
Defined.

Lemma bookinstance_delete_post_removes_witness :
  bookinstance_delete_post (delete_request "bookinstanceid" "i1") (start orphan_copy)
  = {| db := empty_store;
       calls := [Next (TypeError
                   "Cannot read properties of null (reading 'url')")] |}
  /\ bookinstance_delete_post (delete_request "bookinstanceid" "i1") (start library)
     = {| db := set_bookinstances [] library;
          calls := [Redirect "/catalog/book/b1"] |}.
Proof.
  split.
  - refine (proj1 (proj2 (bookinstance_delete_post_removes
                            (delete_request "bookinstanceid" "i1") orphan_copy
                            (a_copy "i1" "b1") eq_refl eq_refl)) eq_refl).
  - refine (proj1 (bookinstance_delete_post_removes
                     (delete_request "bookinstanceid" "i1") library
                     (a_copy "i1" "b1") eq_refl eq_refl)
              (a_book "b1" "a1" ["g1"]) eq_refl).
Defined.

Lemma bookinstance_status_never_rejected_witness :
  errors_of "status"
    (snd (bookinstance_validation iso8601_calendar parse_calendar
            (mk_form (copy_fields "" "") Absent)))
  = []
  /\ bookinstance_create_post iso8601_calendar parse_calendar
       (mk_request "" (copy_fields "" "") Absent "i2") (start library)
     = {| db := set_bookinstances
                  [ a_copy "i1" "b1";
                    {| bi_id := "i2"; bi_book := Some "b1";
                       bi_imprint := Some "Ace, 2005"; bi_status := Some EmptyString;
                       bi_due_back := None |} ] library;
          calls := [Redirect "/catalog/bookinstance/i2"] |}
  /\ bookinstance_update_post iso8601_calendar parse_calendar
       (mk_request "i1" (copy_fields "<b>" "") Absent "") (start library)
     = {| db := set_bookinstances
                  [ {| bi_id := "i1"; bi_book := Some "b1";
                       bi_imprint := Some "Ace, 2005"; bi_status := Some "&lt;b&gt;";
                       bi_due_back := None |} ] library;
          calls := [Redirect "/catalog/bookinstance/i1"] |}.
Proof.
  repeat apply conj.
  - refine (proj1 (bookinstance_status_never_rejected iso8601_calendar parse_calendar
                     (mk_request "" (copy_fields "" "") Absent "i2") library
                     EmptyString eq_refl)).
  - refine (proj1 (proj2 (proj2 (proj2 (proj2
              (bookinstance_status_never_rejected iso8601_calendar parse_calendar
                 (mk_request "" (copy_fields "" "") Absent "i2") library
                 EmptyString eq_refl)))) eq_refl)).
  - refine (proj1 (proj2 (proj2 (proj2 (proj2 (proj2
              (bookinstance_status_never_rejected iso8601_calendar parse_calendar
                 (mk_request "i1" (copy_fields "<b>" "") Absent "") library
                 "<b>" eq_refl)))) eq_refl))).
Defined.

(** ** Further properties of the handlers *)

Section Collections.

Variable D : Type.
Variable id_of : D -> oid.

Lemma updateById_ids (i : oid) (d : D) (l : list D) :
  id_of d = i ->
  map id_of (Collection.updateById id_of i d l) = map id_of l.
Proof.
  intro Hid. unfold Collection.updateById. rewrite map_map.
  apply map_ext. intro x. unfold Collection.has_id.
  destruct (String.eqb (id_of x) i) eqn:E; [|reflexivity].
  apply String.eqb_eq in E. congruence.
Qed.

Lemma updateById_idem (i : oid) (d : D) (l : list D) :
  id_of d = i ->
  Collection.updateById id_of i d (Collection.updateById id_of i d l)
  = Collection.updateById id_of i d l.
Proof.
  intro Hid. unfold Collection.updateById. rewrite map_map.
  apply map_ext. intro x. unfold Collection.has_id.
  destruct (String.eqb (id_of x) i) eqn:E.
  - now rewrite Hid, String.eqb_refl.
  - now rewrite E.
Qed.

Lemma updateById_absent (i : oid) (d : D) (l : list D) :
  Collection.findById id_of (Some i) l = None ->
  Collection.updateById id_of i d l = l.
Proof.
  simpl. induction l as [|x l IH]; [reflexivity|]. simpl.
  destruct (Collection.has_id id_of i x); [discriminate|].
  intro H. now rewrite (IH H).
Qed.

Lemma find_insert_fresh (d : D) (l : list D) :
  Collection.findById id_of (Some (id_of d)) l = None ->
  Collection.findById id_of (Some (id_of d)) (Collection.insert d l) = Some d.
Proof.
  simpl. unfold Collection.insert.
  induction l as [|x l IH]; simpl.
  - intros _. unfold Collection.has_id. now rewrite String.eqb_refl.
  - destruct (Collection.has_id id_of (id_of d) x); [discriminate | exact IH].
Qed.

Lemma find_insert_found (j : oid) (d old : D) (l : list D) :
  Collection.findById id_of (Some j) l = Some old ->
  Collection.findById id_of (Some j) (Collection.insert d l) = Some old.
Proof.
  simpl. unfold Collection.insert.
  induction l as [|x l IH]; simpl; [discriminate|].
  destruct (Collection.has_id id_of j x); [trivial | exact IH].
Qed.

Lemma delete_insert_fresh (d : D) (l : list D) :
  Collection.findById id_of (Some (id_of d)) l = None ->
  Collection.deleteById id_of (Some (id_of d)) (Collection.insert d l) = l.
Proof.
  simpl. unfold Collection.insert.
  induction l as [|x l IH]; simpl.
  - intros _. unfold Collection.has_id. now rewrite String.eqb_refl.
  - destruct (Collection.has_id id_of (id_of d) x); [discriminate|].
    simpl. intro H. now rewrite (IH H).
Qed.

End Collections.

Lemma loose_neq_spec (x : option string) (y : string) :
  loose_neq x y = false <-> x = Some y.
Proof.
  destruct x as [s|]; simpl.
  - rewrite negb_false_iff, String.eqb_eq. split; congruence.
  - split; discriminate.
Qed.

Lemma store_eta (s : store) :
  {| authors := authors s; genres := genres s; books := books s;
     bookinstances := bookinstances s |} = s.
Proof. now destruct s. Qed.

Section MoreProperties.

Variable iso8601 : string -> bool.
Variable Date_parse : string -> option JsDate.
Variable collates : string -> string -> bool.

(** *** Deleting with the wrong id, or what is not there *)

(** X1.  When the id of the body finds no entity, or differs from the id
    of the path (an absent body id differs), each of the four delete
    handlers leaves the store as it is and answers with the one redirect
    to the list. *)
Theorem delete_post_refused (r : request) (s : store) :
  (Collection.findById author_id (scalar (req_form r) "authorid") (authors s) = None
   \/ scalar (req_form r) "authorid" <> Some (params_id r) ->
   author_delete_post r (start s)
   = {| db := s; calls := [Redirect "/catalog/authors"] |})
  /\ (Collection.findById genre_id (scalar (req_form r) "genreid") (genres s) = None
      \/ scalar (req_form r) "genreid" <> Some (params_id r) ->
      genre_delete_post r (start s)
      = {| db := s; calls := [Redirect "/catalog/genres"] |})
  /\ (Collection.findById book_id (scalar (req_form r) "bookid") (books s) = None
      \/ scalar (req_form r) "bookid" <> Some (params_id r) ->
      book_delete_post r (start s)
      = {| db := s; calls := [Redirect "/catalog/books"] |})
  /\ (Collection.findById bi_id (scalar (req_form r) "bookinstanceid")
        (bookinstances s) = None
      \/ scalar (req_form r) "bookinstanceid" <> Some (params_id r) ->
      bookinstance_delete_post r (start s)
      = {| db := s; calls := [Redirect "/catalog/bookinstances"] |}).
Proof.
  assert (N : forall x y, x <> Some y -> loose_neq x y = true).
  { intros x y H. destruct (loose_neq x y) eqn:E; [reflexivity|].
    apply loose_neq_spec in E. contradiction. }
  repeat apply conj; intros [H|H].
  - unfold author_delete_post, asyncHandler, bind, query, start. cbn [db calls].
    now rewrite H.
  - unfold author_delete_post, asyncHandler, bind, query, start. cbn [db calls].
    rewrite (N _ _ H). now rewrite orb_true_r.
  - unfold genre_delete_post, asyncHandler, bind, query, start. cbn [db calls].
    now rewrite H.
  - unfold genre_delete_post, asyncHandler, bind, query, start. cbn [db calls].
    rewrite (N _ _ H). now rewrite orb_true_r.
  - unfold book_delete_post, asyncHandler, bind, query, start. cbn [db calls].
    now rewrite H.
  - unfold book_delete_post, asyncHandler, bind, query, start. cbn [db calls].
    rewrite (N _ _ H). now rewrite orb_true_r.
  - unfold bookinstance_delete_post, asyncHandler, bind, query, start. cbn [db calls].
    now rewrite H.
  - unfold bookinstance_delete_post, asyncHandler, bind, query, start. cbn [db calls].
    rewrite (N _ _ H).
    now destruct (Collection.findById bi_id _ (bookinstances s)).
Qed.

(** *** What an update writes *)

Lemma author_update_post_db (r : request) (s : store) :
  db (author_update_post iso8601 Date_parse r (start s))
  = let v := author_validation iso8601 Date_parse (req_form r) in
    if isEmpty (snd v)
    then set_authors (Collection.updateById author_id (params_id r)
                        (new_Author (params_id r) (fst v)) (authors s)) s
    else s.
Proof.
  unfold author_update_post.
  destruct (author_validation iso8601 Date_parse (req_form r)) as [b errors].
  destruct errors; reflexivity.
Qed.

Lemma bookinstance_update_post_db (r : request) (s : store) :
  db (bookinstance_update_post iso8601 Date_parse r (start s))
  = let v := bookinstance_validation iso8601 Date_parse (req_form r) in
    if isEmpty (snd v)
    then set_bookinstances
           (Collection.updateById bi_id (params_id r)
              (new_BookInstance (params_id r) (fst v)) (bookinstances s)) s
    else s.
Proof.
  unfold bookinstance_update_post.
  destruct (bookinstance_validation iso8601 Date_parse (req_form r)) as [b errors].
  destruct errors as [|e errors]; [reflexivity|].
  unfold asyncHandler, bind, query, book_toString, start. simpl.
  destruct (cast_string (field b "book")); reflexivity.
Qed.

Lemma book_update_post_db (r : request) (s : store) :
  db (book_update_post iso8601 Date_parse r (start s))
  = let v := book_update_validation iso8601 Date_parse (req_form r) in
    if isEmpty (snd v)
    then set_books (Collection.updateById book_id (params_id r)
                      (new_Book (params_id r) (fst v)) (books s)) s
    else s.
Proof.
  unfold book_update_post.
  destruct (book_update_validation iso8601 Date_parse (req_form r)) as [b errors].
  destruct errors as [|e errors]; [|reflexivity].
  unfold asyncHandler, bind, query, write, start. cbn [db calls isEmpty negb fst snd].
  destruct (Collection.findById book_id (Some (params_id r)) (books s)); reflexivity.
Qed.

Lemma genre_update_post_db (r : request) (s : store) :
  db (genre_update_post iso8601 Date_parse collates r (start s))
  = let v := genre_validation iso8601 Date_parse (req_form r) in
    if isEmpty (snd v)
    then match genre_by_name collates (cast_string (field (fst v) "name")) s with
         | Some _ => s
         | None =>
             set_genres (Collection.updateById genre_id (params_id r)
                           (new_Genre (params_id r) (fst v)) (genres s)) s
         end
    else s.
Proof.
  unfold genre_update_post.
  destruct (genre_validation iso8601 Date_parse (req_form r)) as [b errors].
  destruct errors as [|e errors]; [|reflexivity].
  unfold asyncHandler, bind, query, write, start. cbn [db calls isEmpty negb fst snd].
  destruct (genre_by_name collates (cast_string (field b "name")) s); reflexivity.
Qed.

(** X2.  No update handler adds or removes a document: whatever the
    request, the identifiers of the collection it works on are, in order,
    the ones it started from. *)
Theorem update_post_keeps_ids (r : request) (s : store) :
  map author_id (authors (db (author_update_post iso8601 Date_parse r (start s))))
  = map author_id (authors s)
  /\ map genre_id (genres (db (genre_update_post iso8601 Date_parse collates r (start s))))
     = map genre_id (genres s)
  /\ map book_id (books (db (book_update_post iso8601 Date_parse r (start s))))
     = map book_id (books s)
  /\ map bi_id (bookinstances
                  (db (bookinstance_update_post iso8601 Date_parse r (start s))))
     = map bi_id (bookinstances s).
Proof.
  rewrite author_update_post_db, genre_update_post_db, book_update_post_db,
    bookinstance_update_post_db. cbv zeta.
  repeat apply conj.
  - destruct (isEmpty _); [|reflexivity]. now apply updateById_ids.
  - destruct (isEmpty _); [|reflexivity].
    destruct (genre_by_name collates _ s); [reflexivity|]. now apply updateById_ids.
  - destruct (isEmpty _); [|reflexivity]. now apply updateById_ids.
  - destruct (isEmpty _); [|reflexivity]. now apply updateById_ids.
Qed.

(** X3.  Submitting the same update a second time changes nothing more:
    for each update handler and every request, the store after two runs
    is the store after one. *)
Theorem update_post_twice (r : request) (s : store) :
  db (author_update_post iso8601 Date_parse r
        (start (db (author_update_post iso8601 Date_parse r (start s)))))
  = db (author_update_post iso8601 Date_parse r (start s))
  /\ db (genre_update_post iso8601 Date_parse collates r
           (start (db (genre_update_post iso8601 Date_parse collates r (start s)))))
     = db (genre_update_post iso8601 Date_parse collates r (start s))
  /\ db (book_update_post iso8601 Date_parse r
           (start (db (book_update_post iso8601 Date_parse r (start s)))))
     = db (book_update_post iso8601 Date_parse r (start s))
  /\ db (bookinstance_update_post iso8601 Date_parse r
           (start (db (bookinstance_update_post iso8601 Date_parse r (start s)))))
     = db (bookinstance_update_post iso8601 Date_parse r (start s)).
Proof.
  repeat apply conj.
  - rewrite (author_update_post_db r s). cbv zeta.
    destruct (isEmpty _) eqn:E; rewrite author_update_post_db; cbv zeta;
      rewrite E; [|reflexivity].
    unfold set_authors. cbn [authors genres books bookinstances].
    now rewrite updateById_idem.
  - rewrite (genre_update_post_db r s). cbv zeta.
    set (v := genre_validation iso8601 Date_parse (req_form r)).
    set (name := cast_string (field (fst v) "name")).
    destruct (isEmpty (snd v)) eqn:E.
    + destruct (genre_by_name collates name s) eqn:G;
        rewrite genre_update_post_db; cbv zeta; fold v; fold name; rewrite E.
      * now rewrite G.
      * destruct (genre_by_name collates name (set_genres _ s)); [reflexivity|].
        unfold set_genres. cbn [authors genres books bookinstances].
        now rewrite updateById_idem.
    + rewrite genre_update_post_db. cbv zeta. fold v. now rewrite E.
  - rewrite (book_update_post_db r s). cbv zeta.
    destruct (isEmpty _) eqn:E; rewrite book_update_post_db; cbv zeta;
      rewrite E; [|reflexivity].
    unfold set_books. cbn [authors genres books bookinstances].
    now rewrite updateById_idem.
  - rewrite (bookinstance_update_post_db r s). cbv zeta.
    destruct (isEmpty _) eqn:E; rewrite bookinstance_update_post_db; cbv zeta;
      rewrite E; [|reflexivity].
    unfold set_bookinstances. cbn [authors genres books bookinstances].
    now rewrite updateById_idem.
Qed.

Lemma find_update_other {D : Type} (id_of : D -> oid) (i j : oid) (d : D)
    (l : list D) :
  id_of d = i -> j <> i ->
  Collection.findById id_of (Some j) (Collection.updateById id_of i d l)
  = Collection.findById id_of (Some j) l.
Proof.
  intros Hid Hne. simpl. unfold Collection.updateById.
  assert (N : Collection.has_id id_of j d = false).
  { unfold Collection.has_id. rewrite Hid. now apply String.eqb_neq. }
  induction l as [|x l IH]; [reflexivity|]. simpl.
  destruct (Collection.has_id id_of i x) eqn:E.
  - assert (M : Collection.has_id id_of j x = false).
    { unfold Collection.has_id in *. apply String.eqb_eq in E. rewrite E.
      apply String.eqb_neq. congruence. }
    rewrite N, M. exact IH.
  - destruct (Collection.has_id id_of j x); [reflexivity | exact IH].
Qed.

(** X18.  An update touches no document but the one of the path id:
    whatever the request, every other id finds after each update handler
    what it found before. *)
Theorem update_post_leaves_others (r : request) (s : store) (j : oid) :
  j <> params_id r ->
  Collection.findById author_id (Some j)
    (authors (db (author_update_post iso8601 Date_parse r (start s))))
  = Collection.findById author_id (Some j) (authors s)
  /\ Collection.findById genre_id (Some j)
       (genres (db (genre_update_post iso8601 Date_parse collates r (start s))))
     = Collection.findById genre_id (Some j) (genres s)
  /\ Collection.findById book_id (Some j)
       (books (db (book_update_post iso8601 Date_parse r (start s))))
     = Collection.findById book_id (Some j) (books s)
  /\ Collection.findById bi_id (Some j)
       (bookinstances (db (bookinstance_update_post iso8601 Date_parse r (start s))))
     = Collection.findById bi_id (Some j) (bookinstances s).
Proof.
  intro Hne.
  rewrite author_update_post_db, genre_update_post_db, book_update_post_db,
    bookinstance_update_post_db. cbv zeta.
  repeat apply conj.
  - destruct (isEmpty _); [|reflexivity]. now apply find_update_other.
  - destruct (isEmpty _); [|reflexivity].
    destruct (genre_by_name collates _ s); [reflexivity|]. now apply find_update_other.
  - destruct (isEmpty _); [|reflexivity]. now apply find_update_other.
  - destruct (isEmpty _); [|reflexivity]. now apply find_update_other.
Qed.

(** X4.  A valid update for an id that is not in the store writes
    nothing.  The author and book instance handlers still answer with a
    redirect to the detail location of that id; the book handler reads the
    [url] of the [null] that [findByIdAndUpdate] gave, and the TypeError
    goes to [next]. *)
Theorem update_post_of_absent_id (r : request) (s : store) :
  (snd (author_validation iso8601 Date_parse (req_form r)) = [] ->
   Collection.findById author_id (Some (params_id r)) (authors s) = None ->
   author_update_post iso8601 Date_parse r (start s)
   = {| db := s; calls := [Redirect ("/catalog/author/" ++ params_id r)] |})
  /\ (snd (bookinstance_validation iso8601 Date_parse (req_form r)) = [] ->
      Collection.findById bi_id (Some (params_id r)) (bookinstances s) = None ->
      bookinstance_update_post iso8601 Date_parse r (start s)
      = {| db := s; calls := [Redirect ("/catalog/bookinstance/" ++ params_id r)] |})
  /\ (snd (book_update_validation iso8601 Date_parse (req_form r)) = [] ->
      Collection.findById book_id (Some (params_id r)) (books s) = None ->
      book_update_post iso8601 Date_parse r (start s)
      = {| db := s;
           calls := [Next (TypeError
                       "Cannot read properties of null (reading 'url')")] |}).
Proof.
  repeat apply conj; intros Hv Hf.
  - unfold author_update_post.
    destruct (author_validation iso8601 Date_parse (req_form r)) as [b errors].
    simpl in Hv. subst errors.
    unfold asyncHandler, bind, write, redirect, respond, start.
    cbn [db calls isEmpty negb].
    rewrite (updateById_absent _ _ _ _ _ Hf). unfold set_authors.
    now rewrite store_eta.
  - rewrite (bookinstance_update_post_valid iso8601 Date_parse r s Hv). cbv zeta.
    rewrite (updateById_absent _ _ _ _ _ Hf). unfold set_bookinstances.
    now rewrite store_eta.
  - unfold book_update_post.
    destruct (book_update_validation iso8601 Date_parse (req_form r)) as [b errors].
    simpl in Hv. subst errors.
    unfold asyncHandler, bind, query, write, start. cbn [db calls isEmpty negb].
    rewrite Hf. rewrite (updateById_absent _ _ _ _ _ Hf). unfold set_books.
    now rewrite store_eta.
Qed.

(** *** Required fields *)

Lemma ltrim_all_space_upto (n : nat) (t : string) :
  String.length t <= n -> Str.all_space t = true -> Str.ltrim t = EmptyString.
Proof.
  revert t. induction n as [|n IH]; intros t Hn H.
  - destruct t; [reflexivity | simpl in Hn; lia].
  - destruct t as [|c1 t1]; [reflexivity|].
    cbn [Str.ltrim Str.all_space] in *. simpl String.length in Hn.
    destruct (Str.is_space c1).
    + apply IH; [lia | assumption].
    + destruct t1 as [|c2 t2]; [discriminate|]. simpl String.length in Hn.
      destruct (Str.is_space2 c1 c2).
      * apply IH; [lia | assumption].
      * destruct t2 as [|c3 t3]; [discriminate|]. simpl String.length in Hn.
        destruct (Str.is_space3 c1 c2 c3); [|discriminate].
        apply IH; [lia | assumption].
Qed.

(** Trimming leaves nothing of a string made of white space. *)
Lemma trim_all_space (t : string) :
  Str.all_space t = true -> Str.trim t = EmptyString.
Proof.
  intro H. unfold Str.trim.
  now rewrite (ltrim_all_space_upto (String.length t) t (le_n _) H).
Qed.

(** A field that is absent, or made of white space, is blank. *)
Lemma blank_of_white_space (f : form) (fld : string) :
  scalar f fld = None
  \/ (exists t, scalar f fld = Some t /\ Str.all_space t = true) ->
  blank f fld = true.
Proof.
  unfold blank. cbn [parsed field].
  intros [E|[t [E H]]]; rewrite E; cbn [stringify]; [reflexivity|].
  now rewrite (trim_all_space t H).
Qed.

(** X5.  The validation of a book collects one error for each of title,
    author, summary and isbn that is blank, in that order, and no other
    error (create and update differ in the final full stop of the
    messages).  With such an error, [book_update_post] and
    [book_create_post] write nothing and render the form again with the
    authors, the genres, the document built from the submission and the
    errors. *)
Theorem book_required_fields (r : request) (s : store) :
  let f := req_form r in
  snd (book_create_validation iso8601 Date_parse f)
  = required_errors book_create_messages f
  /\ snd (book_update_validation iso8601 Date_parse f)
     = required_errors book_update_messages f
  /\ (required_errors book_update_messages f <> [] ->
      book_update_post iso8601 Date_parse r (start s)
      = {| db := s;
           calls := [Render "book_form" "Update Book"
                       [ ("authors", DAuthors (authors s));
                         ("genres", DGenres (genres s));
                         ("book", DBook (new_Book (params_id r)
                            (fst (book_update_validation iso8601 Date_parse f))));
                         ("errors", DErrors (required_errors book_update_messages f)) ]] |})
  /\ (required_errors book_create_messages f <> [] ->
      book_create_post iso8601 Date_parse r (start s)
      = {| db := s;
           calls := [Render "book_form" "Create Book"
                       [ ("authors", DAuthors (authors s));
                         ("genres", DGenres (genres s));
                         ("book", DBook (new_Book (fresh r)
                            (fst (book_create_validation iso8601 Date_parse f))));
                         ("errors", DErrors (required_errors book_create_messages f)) ]] |}).
Proof.
  cbv zeta.
  assert (E1 : snd (book_create_validation iso8601 Date_parse (req_form r))
               = required_errors book_create_messages (req_form r)).
  { unfold book_create_validation, book_create_chains, required_errors, blank.
    eval_chains. split_blank; reflexivity. }
  assert (E2 : snd (book_update_validation iso8601 Date_parse (req_form r))
               = required_errors book_update_messages (req_form r)).
  { unfold book_update_validation, book_update_chains, required_errors, blank.
    eval_chains. split_blank; reflexivity. }
  split; [exact E1 | split; [exact E2 | split]].
  - intro H. rewrite <- E2 in *. clear E1. unfold book_update_post.
    destruct (book_update_validation iso8601 Date_parse (req_form r)) as [b errors].
    cbn [fst snd] in *. destruct errors as [|e errors]; [congruence|]. reflexivity.
  - intro H. rewrite <- E1 in *. clear E2. unfold book_create_post.
    destruct (book_create_validation iso8601 Date_parse (req_form r)) as [b errors].
    cbn [fst snd] in *. destruct errors as [|e errors]; [congruence|]. reflexivity.
Qed.

(** X6.  The validation of a book instance reports [book] (and likewise
    [imprint]) exactly when the field is blank: when what trimming leaves
    of it has a length below 1.  An absent field is blank, and so is one
    made only of white space.  With either error neither the create nor
    the update handler writes. *)
Theorem bookinstance_required_fields (r : request) (s : store) (fld m : string) :
  In (fld, m) bookinstance_messages ->
  let f := req_form r in
  let errors := snd (bookinstance_validation iso8601 Date_parse f) in
  (In {| path := fld; msg := m |} errors <-> blank f fld = true)
  /\ (scalar f fld = None
      \/ (exists t, scalar f fld = Some t /\ Str.all_space t = true) ->
      In {| path := fld; msg := m |} errors)
  /\ (In {| path := fld; msg := m |} errors ->
      db (bookinstance_create_post iso8601 Date_parse r (start s)) = s
      /\ db (bookinstance_update_post iso8601 Date_parse r (start s)) = s).
Proof.
  intros Hin f errors. subst f errors.
  assert (B : In {| path := fld; msg := m |}
                (snd (bookinstance_validation iso8601 Date_parse (req_form r)))
              <-> blank (req_form r) fld = true).
  { unfold blank. unfold bookinstance_validation, bookinstance_chains.
    destruct Hin as [E|[E|[]]]; injection E as <- <-;
      cbn -[Str.trim Str.escape Str.isLength];
      split_blank; cbn [negb]; split_conditions; cbn;
      (split; [intros; try reflexivity; repeat match goal with
                                          | H : _ \/ _ |- _ => destruct H
                                          | H : False |- _ => destruct H
                                          end; congruence
              | intros; try discriminate; auto]). }
  split; [exact B | split].
  - intro H. apply B. now apply blank_of_white_space.
  - intro H.
    assert (N : snd (bookinstance_validation iso8601 Date_parse (req_form r)) <> []).
    { intro E. rewrite E in H. exact H. }
    split.
    + now apply bookinstance_create_post_invalid.
    + now apply bookinstance_update_post_invalid.
Qed.

(** *** Genre names *)

Lemma isLength_lt (n : nat) (s : string) :
  Str.length s < n -> Str.isLength n s = false.
Proof. intro H. unfold Str.isLength. now apply Nat.leb_gt. Qed.

(** X7.  A genre name of which trimming leaves a length below three (an
    absent name included) is refused by create and by update alike:
    nothing is written, and the genre form is rendered with the one error
    and the document built from the trimmed, escaped name.  The update
    handler renders it under the title of the create form. *)
Theorem genre_short_name_refused (r : request) (s : store) :
  let name := Str.trim (stringify (field (parsed (req_form r)) "name")) in
  Str.length name < 3 ->
  let refused (id : oid) :=
    {| db := s;
       calls := [Render "genre_form" "Create genre"
                   [ ("genre", DGenre {| genre_id := id;
                                         genre_name := Some (Str.escape name) |});
                     ("errors",
                      DErrors [ {| path := "name";
                                   msg := "Genre must contain at least 3 characters" |} ]) ]] |} in
  genre_create_post iso8601 Date_parse collates r (start s) = refused (fresh r)
  /\ genre_update_post iso8601 Date_parse collates r (start s) = refused (params_id r).
Proof.
  intros name Hlen refused. subst name refused.
  unfold genre_create_post, genre_update_post, genre_validation, genre_chains.
  eval_handler. eval_handler_in Hlen.
  rewrite (isLength_lt 3 _ Hlen). split; reflexivity.
Qed.

Lemma genre_update_post_valid (r : request) (s : store) (n : string) :
  scalar (req_form r) "name" = Some n ->
  Str.isLength 3 (Str.trim n) = true ->
  genre_update_post iso8601 Date_parse collates r (start s)
  = match genre_by_name collates (Some (Str.escape (Str.trim n))) s with
    | Some g => {| db := s; calls := [Redirect (genre_url g)] |}
    | None =>
        {| db := set_genres
                   (Collection.updateById genre_id (params_id r)
                      {| genre_id := params_id r;
                         genre_name := Some (Str.escape (Str.trim n)) |}
                      (genres s)) s;
           calls := [Redirect ("/catalog/genre/" ++ params_id r)] |}
    end.
Proof.
  intros Hn Hlen. unfold genre_update_post, genre_validation, genre_chains.
  eval_handler. rewrite Hn. eval_handler.
  rewrite Hlen. eval_handler.
  unfold asyncHandler, bind, query, start. cbn [db calls].
  destruct (genre_by_name collates _ s); reflexivity.
Qed.

Lemma find_in {D : Type} (id_of : D -> oid) (i : oid) (l : list D) (d : D) :
  Collection.findById id_of (Some i) l = Some d -> In d l /\ id_of d = i.
Proof.
  simpl. intro H. apply find_some in H. destruct H as [Hin Hid].
  split; [assumption | now apply String.eqb_eq].
Qed.

(** X8.  The comparison is the one of the store's collation, and
    [ignoring_case] any equality up to the case of letters that it honours.
    A genre update whose trimmed name has a length of at least three and
    equals, up to case, the name of a genre in the store writes nothing and
    redirects to a genre the comparison equates with the name.  The genre
    being updated counts: an update that only changes the case of its own
    name is never stored.  When the comparison equates no genre of the
    store with the name, the name is written over the genre of the path id
    and the redirect goes to that id. *)
Theorem genre_update_post_unique_name
    (ignoring_case : string -> string -> Prop)
    (r : request) (s : store) (n : string) :
  honours collates ignoring_case ->
  scalar (req_form r) "name" = Some n ->
  Str.isLength 3 (Str.trim n) = true ->
  let name := Str.escape (Str.trim n) in
  ((exists g, In g (genres s) /\ same_name_ignoring_case ignoring_case name g) ->
     exists g, In g (genres s) /\ collates_with collates name g
       /\ genre_update_post iso8601 Date_parse collates r (start s)
          = {| db := s; calls := [Redirect (genre_url g)] |})
  /\ (forall own,
        Collection.findById genre_id (Some (params_id r)) (genres s) = Some own ->
        same_name_ignoring_case ignoring_case name own ->
        db (genre_update_post iso8601 Date_parse collates r (start s)) = s)
  /\ ((forall g, In g (genres s) -> ~ collates_with collates name g) ->
      genre_update_post iso8601 Date_parse collates r (start s)
      = {| db := set_genres
                   (Collection.updateById genre_id (params_id r)
                      {| genre_id := params_id r; genre_name := Some name |}
                      (genres s)) s;
           calls := [Redirect ("/catalog/genre/" ++ params_id r)] |}).
Proof.
  intros Hon Hn Hlen name.
  assert (Dup : (exists g, In g (genres s)
                           /\ same_name_ignoring_case ignoring_case name g) ->
                exists g, In g (genres s) /\ collates_with collates name g
                  /\ genre_update_post iso8601 Date_parse collates r (start s)
                     = {| db := s; calls := [Redirect (genre_url g)] |}).
  { intros [g0 [Hin0 Hs0]].
    assert (Hex : exists g, In g (genres s) /\ collates_with collates name g).
    { exists g0. split; [assumption|].
      now apply (honoured_name_collates collates ignoring_case). }
    destruct (genre_by_name_exists collates name s Hex) as [g Hg].
    exists g. destruct (genre_by_name_found collates _ _ _ Hg) as [Hin Hs].
    split; [assumption | split; [assumption|]].
    rewrite (genre_update_post_valid r s n Hn Hlen). fold name. now rewrite Hg. }
  split; [exact Dup | split].
  - intros own Hown Hsame. apply find_in in Hown. destruct Hown as [Hin _].
    destruct (Dup (ex_intro _ own (conj Hin Hsame))) as [g [_ [_ E]]].
    now rewrite E.
  - intro Hno. rewrite (genre_update_post_valid r s n Hn Hlen). fold name.
    now rewrite (genre_by_name_missing collates name s Hno).
Qed.

(** *** Creating, finding, deleting *)

Lemma author_create_post_valid (r : request) (s : store) :
  snd (author_validation iso8601 Date_parse (req_form r)) = [] ->
  author_create_post iso8601 Date_parse r (start s)
  = let created := new_Author (fresh r)
                     (fst (author_validation iso8601 Date_parse (req_form r))) in
    {| db := set_authors (Collection.insert created (authors s)) s;
       calls := [Redirect ("/catalog/author/" ++ fresh r)] |}.
Proof.
  intro H. unfold author_create_post.
  destruct (author_validation iso8601 Date_parse (req_form r)) as [b errors].
  simpl in H. subst errors. reflexivity.
Qed.

(** X9.  A valid author or book instance submission whose fresh id is not
    yet in the collection: after the create handler, that id finds the
    document built from the submission, every id that found a document
    before still finds the same one, and the response is the redirect to
    the detail location of the fresh id. *)
Theorem create_then_find (r : request) (s : store) :
  (snd (author_validation iso8601 Date_parse (req_form r)) = [] ->
   Collection.findById author_id (Some (fresh r)) (authors s) = None ->
   let w := author_create_post iso8601 Date_parse r (start s) in
   Collection.findById author_id (Some (fresh r)) (authors (db w))
   = Some (new_Author (fresh r)
             (fst (author_validation iso8601 Date_parse (req_form r))))
   /\ (forall j old,
         Collection.findById author_id (Some j) (authors s) = Some old ->
         Collection.findById author_id (Some j) (authors (db w)) = Some old)
   /\ calls w = [Redirect ("/catalog/author/" ++ fresh r)])
  /\ (snd (bookinstance_validation iso8601 Date_parse (req_form r)) = [] ->
      Collection.findById bi_id (Some (fresh r)) (bookinstances s) = None ->
      let w := bookinstance_create_post iso8601 Date_parse r (start s) in
      Collection.findById bi_id (Some (fresh r)) (bookinstances (db w))
      = Some (new_BookInstance (fresh r)
                (fst (bookinstance_validation iso8601 Date_parse (req_form r))))
      /\ (forall j old,
            Collection.findById bi_id (Some j) (bookinstances s) = Some old ->
            Collection.findById bi_id (Some j) (bookinstances (db w)) = Some old)
      /\ calls w = [Redirect ("/catalog/bookinstance/" ++ fresh r)]).
Proof.
  split; intros Hv Hfresh w; subst w.
  - rewrite (author_create_post_valid r s Hv). cbv zeta.
    cbn [db calls authors set_authors]. repeat apply conj.
    + now apply (find_insert_fresh Author author_id
                   (new_Author (fresh r) _) (authors s)).
    + intros j old Hold. now apply find_insert_found.
    + reflexivity.
  - rewrite (bookinstance_create_post_valid iso8601 Date_parse r s Hv). cbv zeta.
    cbn [db calls bookinstances set_bookinstances]. repeat apply conj.
    + now apply (find_insert_fresh BookInstance bi_id
                   (new_BookInstance (fresh r) _) (bookinstances s)).
    + intros j old Hold. now apply (find_insert_found BookInstance bi_id).
    + reflexivity.
Qed.

(** X10.  A genre that was just created can be deleted again, and the store
    is then the one before the create: for a valid name that the
    comparison of the store equates with the name of no genre, a fresh id
    that no genre has and no book lists, the create handler followed by the
    delete handler on the fresh id gives back the store. *)
Theorem genre_create_then_delete (r d : request) (s : store) (n : string) :
  scalar (req_form r) "name" = Some n ->
  Str.isLength 3 (Str.trim n) = true ->
  (forall g, In g (genres s) -> ~ collates_with collates (Str.escape (Str.trim n)) g) ->
  Collection.findById genre_id (Some (fresh r)) (genres s) = None ->
  (forall b, In b (books s) -> ~ references_genre (fresh r) b) ->
  params_id d = fresh r ->
  scalar (req_form d) "genreid" = Some (fresh r) ->
  genre_delete_post d
    (start (db (genre_create_post iso8601 Date_parse collates r (start s))))
  = {| db := s; calls := [Redirect "/catalog/genres"] |}.
Proof.
  intros Hn Hlen Hno Hfresh Hbooks Hd Hbody.
  rewrite (genre_create_post_valid iso8601 Date_parse collates r s n Hn Hlen).
  rewrite (genre_by_name_missing collates _ s Hno). cbn [db].
  set (g := {| genre_id := fresh r; genre_name := Some (Str.escape (Str.trim n)) |}).
  set (s1 := set_genres (genres s ++ [g])%list s).
  assert (Hfind : Collection.findById genre_id (Some (params_id d)) (genres s1) = Some g).
  { rewrite Hd. exact (find_insert_fresh Genre genre_id g (genres s) Hfresh). }
  rewrite (genre_delete_post_free d s1 g).
  - rewrite Hd. subst s1. unfold set_genres. cbn [authors genres books bookinstances].
    pose proof (delete_insert_fresh Genre genre_id g (genres s) Hfresh) as E.
    unfold Collection.insert in E. change (genre_id g) with (fresh r) in E.
    rewrite <- (store_eta s) at 5. do 2 f_equal. exact E.
  - now rewrite Hd.
  - exact Hfind.
  - rewrite Hd. exact Hbooks.
Qed.

Lemma bookinstance_delete_post_db (r : request) (s : store) (i : BookInstance) :
  scalar (req_form r) "bookinstanceid" = Some (params_id r) ->
  Collection.findById bi_id (Some (params_id r)) (bookinstances s) = Some i ->
  db (bookinstance_delete_post r (start s))
  = set_bookinstances
      (Collection.deleteById bi_id (Some (params_id r)) (bookinstances s)) s.
Proof.
  intros Hbody Hfind. unfold bookinstance_delete_post. rewrite Hbody.
  unfold asyncHandler, bind, query, write, start. cbn [db calls].
  rewrite Hfind, loose_neq_same. cbn [db calls].
  destruct (Collection.findById book_id (bi_book i) (books s)); reflexivity.
Qed.

(** X11.  A book whose copies all carry one id: the delete of the book is
    refused while that copy is in the store, and once the copy has been
    deleted the same request removes the book and redirects to the list of
    books. *)
Theorem book_delete_after_its_copy
    (rb ri : request) (s : store) (bk : Book) (i : BookInstance) :
  scalar (req_form rb) "bookid" = Some (params_id rb) ->
  Collection.findById book_id (Some (params_id rb)) (books s) = Some bk ->
  scalar (req_form ri) "bookinstanceid" = Some (params_id ri) ->
  Collection.findById bi_id (Some (params_id ri)) (bookinstances s) = Some i ->
  references_book (params_id rb) i ->
  (forall j, In j (bookinstances s) -> references_book (params_id rb) j ->
             bi_id j = params_id ri) ->
  db (book_delete_post rb (start s)) = s
  /\ let s1 := db (bookinstance_delete_post ri (start s)) in
     book_delete_post rb (start s1)
     = {| db := set_books
                  (Collection.deleteById book_id (Some (params_id rb)) (books s)) s1;
          calls := [Redirect "/catalog/books"] |}
     /\ Collection.findById book_id (Some (params_id rb))
          (books (db (book_delete_post rb (start s1)))) = None.
Proof.
  intros Hb Hbk Hi Hfi Href Hsole. split.
  - destruct (find_in bi_id _ _ _ Hfi) as [Hin _].
    now rewrite (book_delete_post_blocked rb s bk i Hb Hbk Hin Href).
  - cbv zeta. rewrite (bookinstance_delete_post_db ri s i Hi Hfi).
    set (s1 := set_bookinstances _ s).
    assert (E : book_delete_post rb (start s1)
                = {| db := set_books
                             (Collection.deleteById book_id (Some (params_id rb))
                                (books s1)) s1;
                     calls := [Redirect "/catalog/books"] |}).
    { apply (book_delete_post_free rb s1 bk Hb Hbk).
      intros j Hj Hrj. subst s1. cbn [bookinstances set_bookinstances] in Hj.
      simpl in Hj. apply filter_In in Hj. destruct Hj as [Hj Hne].
      apply Hsole in Hrj; [|assumption].
      unfold Collection.has_id in Hne. rewrite Hrj, String.eqb_refl in Hne.
      discriminate. }
    rewrite E. split; [reflexivity|].
    cbn [db books set_books]. apply find_after_delete.
Qed.

(** *** Escaping *)

Lemma all_chars_app (p : ascii -> bool) (a b : string) :
  Str.all_chars p (a ++ b) = Str.all_chars p a && Str.all_chars p b.
Proof.
  induction a as [|c a IH]; simpl; [reflexivity|].
  now rewrite IH, andb_assoc.
Qed.

Ltac each_char c :=
  destruct c as [[] [] [] [] [] [] [] []]; vm_compute; try reflexivity;
  try discriminate.

Lemma escape_char_alnum (c : ascii) :
  Str.all_chars Str.is_alnum (Str.escape_char c) = Str.is_alnum c.
Proof. each_char c. Qed.

Lemma escape_char_of_alnum (c : ascii) :
  Str.is_alnum c = true -> Str.escape_char c = String c EmptyString.
Proof. each_char c. Qed.

Lemma escape_char_markup_free (c : ascii) :
  markup_free (Str.escape_char c) = true.
Proof. each_char c. Qed.

Lemma escape_char_nonempty (c : ascii) (s : string) :
  Str.is_empty (Str.escape_char c ++ s) = false.
Proof. each_char c. Qed.

Lemma escape_all_alnum (s : string) :
  Str.all_chars Str.is_alnum (Str.escape s) = Str.all_chars Str.is_alnum s.
Proof.
  induction s as [|c s IH]; [reflexivity|]. cbn [Str.escape Str.all_chars].
  now rewrite all_chars_app, escape_char_alnum, IH.
Qed.

(** Escaping changes neither whether a string is alphanumeric nor an
    alphanumeric string. *)
Lemma isAlphanumeric_escape (s : string) :
  Str.isAlphanumeric (Str.escape s) = Str.isAlphanumeric s.
Proof.
  unfold Str.isAlphanumeric. rewrite escape_all_alnum. f_equal. f_equal.
  destruct s as [|c s]; [reflexivity|]. cbn [Str.escape].
  now rewrite escape_char_nonempty.
Qed.

Lemma escape_of_alnum (s : string) :
  Str.all_chars Str.is_alnum s = true -> Str.escape s = s.
Proof.
  induction s as [|c s IH]; [reflexivity|]. cbn [Str.escape Str.all_chars].
  intro H. apply andb_true_iff in H. destruct H as [Hc Hs].
  now rewrite (escape_char_of_alnum c Hc), (IH Hs).
Qed.

Lemma escape_markup_free (s : string) : markup_free (Str.escape s) = true.
Proof.
  unfold markup_free. induction s as [|c s IH]; [reflexivity|].
  cbn [Str.escape]. rewrite all_chars_app, IH.
  pose proof (escape_char_markup_free c) as Hc. unfold markup_free in Hc.
  now rewrite Hc.
Qed.

Lemma alnum_is_plain (c : ascii) :
  Str.is_alnum c = true ->
  Str.is_continuation c = false /\ forall c2 c3, Str.is_selector c c2 c3 = false.
Proof.
  destruct c as [[] [] [] [] [] [] [] []]; intro H; vm_compute in H;
    try discriminate H; split; reflexivity.
Qed.

(** In a string of letters and digits every byte is a character, and none
    is a variation selector. *)
Lemma length_of_alnum (s : string) :
  Str.all_chars Str.is_alnum s = true ->
  Str.code_points s = String.length s /\ Str.selectors s = 0.
Proof.
  induction s as [|c s IH]; [split; reflexivity|].
  cbn [Str.all_chars]. intro H. apply andb_true_iff in H. destruct H as [Hc Hs].
  destruct (IH Hs) as [E1 E2]. destruct (alnum_is_plain c Hc) as [P1 P2].
  split.
  - cbn [Str.code_points String.length]. now rewrite P1, E1.
  - cbn [Str.selectors]. rewrite E2.
    destruct s as [|c2 [|c3 s]]; try reflexivity. now rewrite P2.
Qed.

Lemma isLength_of_alnum (n : string) :
  Str.isAlphanumeric n = true -> Str.isLength 1 n = true.
Proof.
  unfold Str.isAlphanumeric. intro H. apply andb_true_iff in H.
  destruct H as [H1 H2]. destruct (length_of_alnum n H2) as [E1 E2].
  unfold Str.isLength, Str.length. rewrite E1, E2.
  destruct n; [discriminate|]. reflexivity.
Qed.

(** X12.  An author name is judged on what is left after trimming: a name
    of length 0 gets both messages of its chain, in their order (the chain
    does not stop at the first failure); a name that has a length and a
    character outside letters and digits gets the second message only; a
    name of letters and digits gets no error, and the document then stores
    the trimmed name unchanged (escaping does not alter it).  The same
    holds for [first_name] and [family_name]. *)
Theorem author_name_rules (f : form) (id : oid) :
  let v := author_validation iso8601 Date_parse f in
  name_contract "first_name" "First name must be specified."
    "First name has non-alphanumeric characters."
    (snd v) (first_name (new_Author id (fst v)))
    (Str.trim (stringify (field (parsed f) "first_name")))
  /\ name_contract "family_name" "Family name must be specified."
       "Family name has non-alphanumeric characters."
       (snd v) (family_name (new_Author id (fst v)))
       (Str.trim (stringify (field (parsed f) "family_name"))).
Proof.
  cbv zeta. unfold name_contract, author_validation, author_chains.
  cbn -[Str.trim Str.escape Str.isLength Str.isAlphanumeric].
  rewrite !isAlphanumeric_escape.
  set (n1 := Str.trim (stringify match scalar f "first_name" with
                                 | Some s => VString s
                                 | None => VUndefined
                                 end)).
  set (n2 := Str.trim (stringify match scalar f "family_name" with
                                 | Some s => VString s
                                 | None => VUndefined
                                 end)).
  assert (A : forall n, Str.isAlphanumeric n = true ->
                        Str.isLength 1 n = true /\ Str.escape n = n).
  { intros n H. split; [now apply isLength_of_alnum|].
    unfold Str.isAlphanumeric in H. apply andb_true_iff in H.
    now apply escape_of_alnum. }
  assert (B : forall n, Str.isLength 1 n = false -> Str.isAlphanumeric n = false).
  { intros n H. destruct (Str.isAlphanumeric n) eqn:E; [|reflexivity].
    apply isLength_of_alnum in E. congruence. }
  split; (split; [|split]).
  - intro H. rewrite H, (B _ H). cbn. split_conditions; reflexivity.
  - intros H1 H2. rewrite H1, H2. cbn. split_conditions; reflexivity.
  - intro H. destruct (A _ H) as [H1 H2]. split.
    + rewrite H, H1. cbn. split_conditions; reflexivity.
    + now rewrite H2.
  - intro H. rewrite H, (B _ H). cbn. split_conditions; reflexivity.
  - intros H1 H2. rewrite H1, H2. cbn. split_conditions; reflexivity.
  - intro H. destruct (A _ H) as [H1 H2]. split.
    + rewrite H, H1. cbn. split_conditions; reflexivity.
    + now rewrite H2.
Qed.

Lemma forallb_escape (l : list string) :
  forallb markup_free (map Str.escape l) = true.
Proof.
  induction l as [|x l IH]; [reflexivity|]. simpl.
  now rewrite escape_markup_free, IH.
Qed.

(** X13.  Whatever is submitted, the strings of the documents the handlers
    build hold no double quote, apostrophe, less-than, greater-than,
    slash, backslash or backtick: the title, author, summary, isbn and
    every genre of a book, the name of a genre, the book, imprint and
    status of a book instance, the first and family name of an author. *)
Theorem documents_are_escaped (f : form) (id : oid) :
  let book := new_Book id (fst (book_update_validation iso8601 Date_parse f)) in
  let book' := new_Book id (fst (book_create_validation iso8601 Date_parse f)) in
  let genre := new_Genre id (fst (genre_validation iso8601 Date_parse f)) in
  let copy := new_BookInstance id (fst (bookinstance_validation iso8601 Date_parse f)) in
  let author := new_Author id (fst (author_validation iso8601 Date_parse f)) in
  forallb opt_markup_free
    [ book_title book; book_author book; book_summary book; book_isbn book;
      book_title book'; book_author book'; book_summary book'; book_isbn book';
      genre_name genre; bi_book copy; bi_imprint copy; bi_status copy;
      first_name author; family_name author ] = true
  /\ forallb markup_free (book_genre book) = true
  /\ forallb markup_free (book_genre book') = true.
Proof.
  cbv zeta. split; [|split].
  - unfold book_update_validation, book_create_validation, genre_validation,
      bookinstance_validation, author_validation, book_update_chains,
      book_create_chains, genre_chains, bookinstance_chains, author_chains.
    cbn -[Str.trim Str.escape Str.isLength Str.isAlphanumeric markup_free].
    now rewrite !escape_markup_free.
  - rewrite (proj2 (book_genre_of_submission iso8601 Date_parse f id)).
    apply forallb_escape.
  - rewrite (proj1 (book_genre_of_submission iso8601 Date_parse f id)).
    apply forallb_escape.
Qed.

(** *** Pages that only read *)

(** X14.  The detail page of a genre or of a book instance whose id finds
    nothing hands a 404 error to [next] and renders nothing.  The detail
    page of a book instance whose book is not in the store renders nothing
    either: reading the title of the missing book throws, and the
    TypeError goes to [next]. *)
Theorem detail_of_missing (r : request) (s : store) :
  (Collection.findById genre_id (Some (params_id r)) (genres s) = None ->
   genre_detail r (start s)
   = {| db := s; calls := [Next (HttpError 404 "Genre not found")] |})
  /\ (Collection.findById bi_id (Some (params_id r)) (bookinstances s) = None ->
      bookinstance_detail r (start s)
      = {| db := s; calls := [Next (HttpError 404 "Book copy not found")] |})
  /\ (forall i b,
        Collection.findById bi_id (Some (params_id r)) (bookinstances s) = Some i ->
        bi_book i = Some b ->
        Collection.findById book_id (Some b) (books s) = None ->
        bookinstance_detail r (start s)
        = {| db := s;
             calls := [Next (TypeError
                         "Cannot read properties of null (reading 'title')")] |}).
Proof.
  split; [|split].
  - intro H. unfold genre_detail, asyncHandler, bind, query, start.
    cbn [db calls]. now rewrite H.
  - intro H. unfold bookinstance_detail, asyncHandler, bind, query, start.
    cbn [db calls]. now rewrite H.
  - intros i b Hi Hb Hbk. unfold bookinstance_detail, asyncHandler, bind, query, start.
    cbn [db calls]. rewrite Hi. cbn [db calls]. rewrite Hb, Hbk. reflexivity.
Qed.

(** X15.  No page that only reads changes the store, whatever the id and
    whatever the store holds: the detail, list and create-form pages
    modelled here and the delete and update forms of the four entities. *)
Theorem get_pages_write_nothing (r : request) (s : store) :
  Forall (fun page : request -> world -> world => db (page r (start s)) = s)
    [ genre_detail; genre_create_get; genre_delete_get; genre_update_get;
      author_create_get; author_delete_get; author_update_get;
      book_create_get; book_delete_get; book_update_get;
      bookinstance_list; bookinstance_detail; bookinstance_create_get;
      bookinstance_delete_get; bookinstance_update_get ].
Proof.
  repeat apply Forall_cons; try apply Forall_nil;
    unfold genre_detail, genre_create_get, genre_delete_get, genre_update_get,
      author_create_get, author_delete_get, author_update_get,
      book_create_get, book_delete_get, book_update_get,
      bookinstance_list, bookinstance_detail, bookinstance_create_get,
      bookinstance_delete_get, bookinstance_update_get,
      asyncHandler, bind, query, book_toString, start;
    cbn [db calls];
    repeat match goal with
           | |- context [Collection.findById ?f ?i ?l] =>
               destruct (Collection.findById f i l); cbn [db calls absent]
           | |- context [bi_book ?i] => destruct (bi_book i); cbn [db calls]
           end;
    reflexivity.
Qed.

(** *** Dates that are accepted *)

(** X16.  A non-empty value of an optional date field that the recogniser
    accepts gives no error for the field, and the document stores what
    [Date.parse] makes of it (no date, without any error, when it makes
    none). *)
Theorem accepted_dates_are_parsed (f : form) (id : oid) (v : string) :
  v <> EmptyString -> iso8601 v = true ->
  let copy := bookinstance_validation iso8601 Date_parse f in
  let author := author_validation iso8601 Date_parse f in
  (scalar f "due_back" = Some v ->
   errors_of "due_back" (snd copy) = []
   /\ bi_due_back (new_BookInstance id (fst copy)) = Date_parse v)
  /\ (scalar f "date_of_birth" = Some v ->
      errors_of "date_of_birth" (snd author) = []
      /\ date_of_birth (new_Author id (fst author)) = Date_parse v)
  /\ (scalar f "date_of_death" = Some v ->
      errors_of "date_of_death" (snd author) = []
      /\ date_of_death (new_Author id (fst author)) = Date_parse v).
Proof.
  intros Hne Hiso. cbv zeta.
  assert (T : truthy (VString v) = true) by (destruct v; [congruence | reflexivity]).
  split; [|split]; intros Hv.
  - unfold bookinstance_validation, bookinstance_chains.
    cbn -[Str.trim Str.escape Str.isLength truthy]. rewrite Hv, T.
    cbn -[Str.trim Str.escape Str.isLength truthy]. rewrite Hiso.
    split; [split_conditions; reflexivity|].
    destruct (Date_parse v); reflexivity.
  - unfold author_validation, author_chains.
    cbn -[Str.trim Str.escape Str.isLength Str.isAlphanumeric truthy]. rewrite Hv, T.
    cbn -[Str.trim Str.escape Str.isLength Str.isAlphanumeric truthy]. rewrite Hiso.
    split; [split_conditions; reflexivity|].
    destruct (Date_parse v); reflexivity.
  - unfold author_validation, author_chains.
    cbn -[Str.trim Str.escape Str.isLength Str.isAlphanumeric truthy]. rewrite Hv, T.
    cbn -[Str.trim Str.escape Str.isLength Str.isAlphanumeric truthy]. rewrite Hiso.
    split; [split_conditions; reflexivity|].
    destruct (Date_parse v); reflexivity.
Qed.

(** *** Updating a book *)

(** X17.  A valid update of a book that is in the store writes the
    document built from the submission over it, leaves every other
    collection alone, and redirects to the book.  The path id then finds
    that document: its title is the trimmed, escaped title submitted and
    its genres are the submitted genre values in order, each escaped
    (none for an absent field, one for a single value). *)
Theorem book_update_post_stores
    (r : request) (s : store) (old : Book) (t a sm i : string) :
  scalar (req_form r) "title" = Some t ->
  scalar (req_form r) "author" = Some a ->
  scalar (req_form r) "summary" = Some sm ->
  scalar (req_form r) "isbn" = Some i ->
  Str.isLength 1 (Str.trim t) = true -> Str.isLength 1 (Str.trim a) = true ->
  Str.isLength 1 (Str.trim sm) = true -> Str.isLength 1 (Str.trim i) = true ->
  Collection.findById book_id (Some (params_id r)) (books s) = Some old ->
  let updated :=
    {| book_id := params_id r;
       book_title := Some (Str.escape (Str.trim t));
       book_author := Some (Str.escape (Str.trim a));
       book_summary := Some (Str.escape (Str.trim sm));
       book_isbn := Some (Str.escape (Str.trim i));
       book_genre := map Str.escape (cast_refs (genre_input (req_form r))) |} in
  book_update_post iso8601 Date_parse r (start s)
  = {| db := set_books
               (Collection.updateById book_id (params_id r) updated (books s)) s;
       calls := [Redirect ("/catalog/book/" ++ params_id r)] |}
  /\ Collection.findById book_id (Some (params_id r))
       (books (db (book_update_post iso8601 Date_parse r (start s))))
     = Some updated.
Proof.
  intros Ht Ha Hs Hi Vt Va Vs Vi Hold updated.
  assert (V : book_update_validation iso8601 Date_parse (req_form r)
              = (fst (book_update_validation iso8601 Date_parse (req_form r)), [])
              /\ new_Book (params_id r)
                   (fst (book_update_validation iso8601 Date_parse (req_form r)))
                 = updated).
  { subst updated. unfold book_update_validation, book_update_chains, new_Book.
    eval_handler. rewrite Ht, Ha, Hs, Hi. eval_chains.
    rewrite Vt, Va, Vs, Vi.
    destruct (genre_input (req_form r)); split; reflexivity. }
  destruct V as [V1 V2].
  assert (Hid : book_id old = params_id r) by (now destruct (find_in book_id _ _ _ Hold)).
  assert (E : book_update_post iso8601 Date_parse r (start s)
              = {| db := set_books
                           (Collection.updateById book_id (params_id r) updated (books s)) s;
                   calls := [Redirect ("/catalog/book/" ++ params_id r)] |}).
  { rewrite (book_update_post_valid iso8601 Date_parse r s old); [|now rewrite V1|exact Hold].
    cbv zeta. rewrite V2. unfold book_url. now rewrite Hid. }
  split; [exact E|]. rewrite E. cbn [db books set_books].
  now apply (find_after_update book_id _ _ old).
Qed.

End MoreProperties.

(** ** The further properties on concrete requests *)

Lemma delete_post_refused_witness :
  author_delete_post (mk_request "a1" [("authorid", "zz")] Absent "") (start library)
  = {| db := library; calls := [Redirect "/catalog/authors"] |}
  /\ genre_delete_post (mk_request "g1" [("genreid", "g2")] Absent "") (start library)
     = {| db := library; calls := [Redirect "/catalog/genres"] |}
  /\ book_delete_post (mk_request "b1" [] Absent "") (start lone_entities)
     = {| db := lone_entities; calls := [Redirect "/catalog/books"] |}
  /\ bookinstance_delete_post (mk_request "i2" [("bookinstanceid", "i1")] Absent "")
       (start library)
     = {| db := library; calls := [Redirect "/catalog/bookinstances"] |}.
Proof.
  repeat apply conj.
  - exact (proj1 (delete_post_refused
                    (mk_request "a1" [("authorid", "zz")] Absent "") library)
             (or_introl eq_refl)).
  - exact (proj1 (proj2 (delete_post_refused
                    (mk_request "g1" [("genreid", "g2")] Absent "") library))
             (or_introl eq_refl)).
  - exact (proj1 (proj2 (proj2 (delete_post_refused
                    (mk_request "b1" [] Absent "") lone_entities)))
             (or_introl eq_refl)).
  - refine (proj2 (proj2 (proj2 (delete_post_refused
                    (mk_request "i2" [("bookinstanceid", "i1")] Absent "") library)))
              (or_intror _)).
    discriminate.
Defined.

Lemma update_post_of_absent_id_witness :
  author_update_post iso8601_calendar parse_calendar
    (mk_request "zz" (author_fields "") Absent "") (start library)
  = {| db := library; calls := [Redirect "/catalog/author/zz"] |}
  /\ bookinstance_update_post iso8601_calendar parse_calendar
       (mk_request "zz" (copy_fields "Loaned" "") Absent "") (start library)
     = {| db := library; calls := [Redirect "/catalog/bookinstance/zz"] |}
  /\ book_update_post iso8601_calendar parse_calendar
       (mk_request "zz" valid_book_fields Absent "") (start library)
     = {| db := library;
          calls := [Next (TypeError
                      "Cannot read properties of null (reading 'url')")] |}.
Proof.
  repeat apply conj.
  - refine (proj1 (update_post_of_absent_id iso8601_calendar parse_calendar
                     (mk_request "zz" (author_fields "") Absent "") library)
              eq_refl eq_refl).
  - refine (proj1 (proj2 (update_post_of_absent_id iso8601_calendar parse_calendar
                     (mk_request "zz" (copy_fields "Loaned" "") Absent "") library))
              eq_refl eq_refl).
  - refine (proj2 (proj2 (update_post_of_absent_id iso8601_calendar parse_calendar
                     (mk_request "zz" valid_book_fields Absent "") library))
              eq_refl eq_refl).
Defined.

Lemma book_required_fields_witness :
  book_update_post iso8601_calendar parse_calendar
    (mk_request "b1" [("title", nbsp); ("author", "a1"); ("isbn", "1")] (One "g1") "")
    (start library)
  = {| db := library;
       calls := [Render "book_form" "Update Book"
                   [ ("authors", DAuthors [an_author "a1"]);
                     ("genres", DGenres [a_genre "g1" "Fiction"]);
                     ("book", DBook {| book_id := "b1"; book_title := Some EmptyString;
                                       book_author := Some "a1";
                                       book_summary := Some EmptyString;
                                       book_isbn := Some "1"; book_genre := ["g1"] |});
                     ("errors",
                      DErrors [ {| path := "title"; msg := "Title must not be empty." |};
                                {| path := "summary";
                                   msg := "Summary must not be empty." |} ]) ]] |}.
Proof.
  refine (proj1 (proj2 (proj2 (book_required_fields iso8601_calendar parse_calendar
                          (mk_request "b1" [("title", nbsp); ("author", "a1"); ("isbn", "1")]
                             (One "g1") "") library))) _).
  vm_compute. discriminate.
Defined.

Lemma bookinstance_required_fields_witness :
  In {| path := "imprint"; msg := "Imprint must be specified." |}
    (snd (bookinstance_validation iso8601_calendar parse_calendar
            (mk_form [("book", "b1"); ("imprint", nbsp); ("status", "Loaned")] Absent)))
  /\ db (bookinstance_create_post iso8601_calendar parse_calendar
           (mk_request "" [("book", "b1"); ("imprint", nbsp); ("status", "Loaned")]
              Absent "i2") (start library))
     = library.
Proof.
  assert (H := bookinstance_required_fields iso8601_calendar parse_calendar
                 (mk_request "" [("book", "b1"); ("imprint", nbsp); ("status", "Loaned")]
                    Absent "i2")
                 library "imprint" "Imprint must be specified."
                 (or_intror (or_introl eq_refl))).
  assert (E : In {| path := "imprint"; msg := "Imprint must be specified." |}
                (snd (bookinstance_validation iso8601_calendar parse_calendar
                        (mk_form [("book", "b1"); ("imprint", nbsp); ("status", "Loaned")]
                           Absent)))).
  { apply (proj1 (proj2 H)). right. exists nbsp. split; reflexivity. }
  split; [exact E | exact (proj1 (proj2 (proj2 H) E))].
Defined.

Lemma genre_short_name_refused_witness :
  genre_update_post iso8601_calendar parse_calendar ascii_fold_eqb
    (mk_request "g1" [("name", nbsp ++ two_cjk ++ " ")] Absent "") (start library)
  = {| db := library;
       calls := [Render "genre_form" "Create genre"
                   [ ("genre", DGenre (a_genre "g1" two_cjk));
                     ("errors",
                      DErrors [ {| path := "name";
                                   msg := "Genre must contain at least 3 characters" |} ]) ]] |}.
Proof.
  refine (proj2 (genre_short_name_refused iso8601_calendar parse_calendar ascii_fold_eqb
                   (mk_request "g1" [("name", nbsp ++ two_cjk ++ " ")] Absent "")
                   library _)).
  vm_compute. lia.
Defined.

Lemma genre_update_post_unique_name_witness :
  db (genre_update_post iso8601_calendar parse_calendar ascii_fold_eqb
        (mk_request "g1" [("name", "FICTION")] Absent "") (start library))
  = library
  /\ genre_update_post iso8601_calendar parse_calendar ascii_fold_eqb
       (mk_request "g1" [("name", "Novels")] Absent "") (start library)
     = {| db := set_genres [a_genre "g1" "Novels"] library;
          calls := [Redirect "/catalog/genre/g1"] |}.
Proof.
  split.
  - refine (proj1 (proj2 (genre_update_post_unique_name
                            iso8601_calendar parse_calendar ascii_fold_eqb
                            ignoring_ascii_case
                            (mk_request "g1" [("name", "FICTION")] Absent "") library
                            "FICTION" ignoring_ascii_case_honoured eq_refl eq_refl))
              (a_genre "g1" "Fiction") eq_refl _).
    exists "Fiction". split; reflexivity.
  - refine (proj2 (proj2 (genre_update_post_unique_name
                            iso8601_calendar parse_calendar ascii_fold_eqb
                            ignoring_ascii_case
                            (mk_request "g1" [("name", "Novels")] Absent "") library
                            "Novels" ignoring_ascii_case_honoured eq_refl eq_refl)) _).
    intros g [<-|[]] [m [E1 E2]]. injection E1 as <-. discriminate.
Defined.

Lemma create_then_find_witness :
  Collection.findById author_id (Some "a2")
    (authors (db (author_create_post iso8601_calendar parse_calendar
                    (mk_request "" (author_fields "1920-10-08") Absent "a2")
                    (start library))))
  = Some {| author_id := "a2"; first_name := Some "Frank";
            family_name := Some "Herbert";
            date_of_birth := Some (DateOf "1920-10-08"); date_of_death := None |}.
Proof.
  refine (proj1 (proj1 (create_then_find iso8601_calendar parse_calendar
                          (mk_request "" (author_fields "1920-10-08") Absent "a2")
                          library) eq_refl eq_refl)).
Defined.

Lemma genre_create_then_delete_witness :
  genre_delete_post (delete_request "genreid" "g2")
    (start (db (genre_create_post iso8601_calendar parse_calendar ascii_fold_eqb
                  (mk_request "" [("name", "Poetry")] Absent "g2") (start library))))
  = {| db := library; calls := [Redirect "/catalog/genres"] |}.
Proof.
  refine (genre_create_then_delete iso8601_calendar parse_calendar ascii_fold_eqb
            (mk_request "" [("name", "Poetry")] Absent "g2")
            (delete_request "genreid" "g2") library "Poetry"
            eq_refl eq_refl _ eq_refl _ eq_refl eq_refl).
  - intros g [<-|[]] [m [E1 E2]]. injection E1 as <-. discriminate.
  - intros b [<-|[]] [H|[]]. discriminate.
Defined.

Lemma book_delete_after_its_copy_witness :
  db (book_delete_post (delete_request "bookid" "b1") (start two_copies)) = two_copies
  /\ book_delete_post (delete_request "bookid" "b1")
       (start (db (bookinstance_delete_post (delete_request "bookinstanceid" "i1")
                     (start two_copies))))
     = {| db := {| authors := [an_author "a1"]; genres := [a_genre "g1" "Fiction"];
                   books := []; bookinstances := [a_copy "i2" "b7"] |};
          calls := [Redirect "/catalog/books"] |}.
Proof.
  assert (H := book_delete_after_its_copy
                 (delete_request "bookid" "b1") (delete_request "bookinstanceid" "i1")
                 two_copies (a_book "b1" "a1" ["g1"]) (a_copy "i1" "b1")
                 eq_refl eq_refl eq_refl eq_refl eq_refl).
  refine ((fun H' => conj (proj1 H') (proj1 (proj2 H'))) (H _)).
  intros j [<-|[<-|[]]]; [reflexivity | discriminate].
Defined.

Lemma author_name_rules_witness :
  errors_of "first_name"
    (snd (author_validation iso8601_calendar parse_calendar
            (mk_form [("first_name", nbsp); ("family_name", "O'Neil")] Absent)))
  = [ {| path := "first_name"; msg := "First name must be specified." |};
      {| path := "first_name"; msg := "First name has non-alphanumeric characters." |} ]
  /\ errors_of "family_name"
       (snd (author_validation iso8601_calendar parse_calendar
               (mk_form [("first_name", nbsp); ("family_name", "O'Neil")] Absent)))
     = [ {| path := "family_name";
            msg := "Family name has non-alphanumeric characters." |} ]
  /\ (errors_of "first_name"
        (snd (author_validation iso8601_calendar parse_calendar
                (mk_form [("first_name", "Frank" ++ nbsp); ("family_name", "Herbert")]
                   Absent)))
      = []
      /\ first_name
           (new_Author "a2"
              (fst (author_validation iso8601_calendar parse_calendar
                      (mk_form [("first_name", "Frank" ++ nbsp); ("family_name", "Herbert")]
                         Absent))))
         = Some "Frank").
Proof.
  split; [|split].
  - refine (proj1 (proj1 (author_name_rules iso8601_calendar parse_calendar
                            (mk_form [("first_name", nbsp); ("family_name", "O'Neil")] Absent)
                            EmptyString)) eq_refl).
  - refine (proj1 (proj2 (proj2 (author_name_rules iso8601_calendar parse_calendar
                            (mk_form [("first_name", nbsp); ("family_name", "O'Neil")] Absent)
                            EmptyString))) eq_refl eq_refl).
  - refine (proj2 (proj2 (proj1 (author_name_rules iso8601_calendar parse_calendar
                            (mk_form [("first_name", "Frank" ++ nbsp);
                                      ("family_name", "Herbert")] Absent)
                            "a2"))) eq_refl).
Defined.

Lemma detail_of_missing_witness :
  genre_detail (get_request "zz") (start library)
  = {| db := library; calls := [Next (HttpError 404 "Genre not found")] |}
  /\ bookinstance_detail (get_request "i1") (start orphan_copy)
     = {| db := orphan_copy;
          calls := [Next (TypeError
                      "Cannot read properties of null (reading 'title')")] |}.
Proof.
  split.
  - refine (proj1 (detail_of_missing (get_request "zz") library) eq_refl).
  - refine (proj2 (proj2 (detail_of_missing (get_request "i1") orphan_copy))
              (a_copy "i1" "b1") "b1" eq_refl eq_refl eq_refl).
Defined.

Lemma accepted_dates_are_parsed_witness :
  bi_due_back (new_BookInstance "i2"
                 (fst (bookinstance_validation iso8601_calendar parse_calendar
                         (mk_form (copy_fields "Loaned" "2024-02-29") Absent))))
  = Some (DateOf "2024-02-29").
Proof.
  refine (proj2 (proj1 (accepted_dates_are_parsed iso8601_calendar parse_calendar
                          (mk_form (copy_fields "Loaned" "2024-02-29") Absent)
                          "i2" "2024-02-29" _ eq_refl) eq_refl)).
  discriminate.
Defined.

Lemma book_update_post_stores_witness :
  book_update_post iso8601_calendar parse_calendar
    (mk_request "b1"
       [ ("title", "Dune" ++ nbsp); ("author", "a1"); ("summary", "Sand");
         ("isbn", "9780441013593") ]
       (Many ["g3"; "g1"; "g<2>"]) "") (start library)
  = {| db := set_books
               [ {| book_id := "b1"; book_title := Some "Dune"; book_author := Some "a1";
                    book_summary := Some "Sand"; book_isbn := Some "9780441013593";
                    book_genre := ["g3"; "g1"; "g&lt;2&gt;"] |} ] library;
       calls := [Redirect "/catalog/book/b1"] |}.
Proof.
  refine (proj1 (book_update_post_stores iso8601_calendar parse_calendar
                   (mk_request "b1"
                      [ ("title", "Dune" ++ nbsp); ("author", "a1"); ("summary", "Sand");
                        ("isbn", "9780441013593") ]
                      (Many ["g3"; "g1"; "g<2>"]) "")
                   library (a_book "b1" "a1" ["g1"])
                   ("Dune" ++ nbsp) "a1" "Sand" "9780441013593"
                   eq_refl eq_refl eq_refl eq_refl eq_refl eq_refl eq_refl eq_refl
                   eq_refl)).
Defined.

Lemma update_post_leaves_others_witness :
  Collection.findById bi_id (Some "i2")
    (bookinstances (db (bookinstance_update_post iso8601_calendar parse_calendar
                          (mk_request "i1" (copy_fields "Loaned" "2024-02-29") Absent "")
                          (start two_copies))))
  = Some (a_copy "i2" "b7").
Proof.
  refine (proj2 (proj2 (proj2 (update_post_leaves_others iso8601_calendar parse_calendar
            ascii_fold_eqb
            (mk_request "i1" (copy_fields "Loaned" "2024-02-29") Absent "")
            two_copies "i2" _)))).
  discriminate.
Defined.
